(** * QMongoTableModel: a table model over a MongoDB cursor

    A shallow embedding of [src/mongo_table_model.py]
    ([instance_lru_cache] and [BaseMongoTableModel]) together with the
    properties of its natural-language specification.

    Python objects are modelled as follows.
    - a BSON value is a [bson]; a document is a Python [dict], kept as an
      association list in insertion order ([doc.items ()] iterates in it);
    - Python integers are [Z];
    - Python [str] is [string]; comparison of [str] is by code point, which
      on UTF-8 bytes is the byte-wise order [String.compare];
    - an instance of [BaseMongoTableModel] is the record [Model]; a method
      is a function in the monad [M], which threads the instance and may
      raise ([Raise e]) instead of returning ([Ret a]);
    - the signals of [QAbstractTableModel] and the calls made on the pymongo
      cursor are appended to the [log] of the instance. *)

From Stdlib Require Import ZArith Ascii.
From Stdlib Require OrderedTypeEx.
From stdpp Require Import base list sorting strings pretty.

Local Open Scope Z_scope.

(** ** Documents *)

#[local] Unset Elimination Schemes.
Inductive bson : Type :=
| VNone
| VBool (b : bool)
| VInt (n : Z)
| VStr (s : string)
| VObjectId (hex : string)
| VDatetime (utc_micros : Z)
| VList (items : list bson)
| VDict (items : list (string * bson)).
#[local] Set Elimination Schemes.

(** A document as pymongo returns it: a [dict] from [str] to values. *)
Abbreviation document := (list (string * bson)).

(** [type(value) is dict] *)
Definition is_dict (v : bson) : bool :=
  match v with VDict _ => true | _ => false end.

(** ** [updateHeader]: the helper [getKeys] *)

(** [f"{root}.{key}" if root is not None else key] *)
Definition nested_key_of (root : option string) (key : string) : string :=
  match root with
  | Some r => r +:+ "." +:+ key
  | None => key
  end.

(** The contribution of one [(key, value)] item of [doc.items ()] whose
    dotted name [nested_key] is already formed: the body of the [for] loop
    of [getKeys].  The recursion follows the nesting of the value. *)
Fixpoint getKeys_item (depth : Z) (nested_key : string) (v : bson)
  : list string :=
  match v with
  | VDict d =>
      if 0 <? depth
      then flat_map
             (fun kv => getKeys_item (depth - 1)
                          (nested_key_of (Some nested_key) (fst kv)) (snd kv))
             d
      else [nested_key]
  | _ => [nested_key]
  end.

(** [getKeys(doc, depth, root)] *)
Definition getKeys (doc : document) (depth : Z) (root : option string)
  : list string :=
  flat_map (fun kv => getKeys_item depth (nested_key_of root (fst kv)) (snd kv))
           doc.

(** The discovery rule in the words of the specification: a key is expanded
    into sub-paths iff its value is a nested document and the remaining
    depth budget is positive; otherwise it is one flat column. *)
Inductive discovered : Z -> option string -> document -> string -> Prop :=
| discovered_flat budget root doc key v :
    (key, v) ∈ doc ->
    ~ (is_dict v = true /\ 0 < budget) ->
    discovered budget root doc (nested_key_of root key)
| discovered_nested budget root doc key sub path :
    (key, VDict sub) ∈ doc ->
    0 < budget ->
    discovered (budget - 1) (Some (nested_key_of root key)) sub path ->
    discovered budget root doc path.

(** ** Exceptions *)

Inductive exn : Type :=
| IndexError | KeyError | TypeError | ValueError | AttributeError
| OverflowError | PyMongoError.

Global Instance exn_eq_dec : EqDecision exn.
Proof. solve_decision. Defined.

(** The outcome of evaluating a Python expression. *)
Inductive result (A : Type) : Type :=
| Ret (a : A)
| Raise (e : exn).
Global Arguments Ret {A} a.
Global Arguments Raise {A} e.

Global Instance result_ret : MRet result := fun A a => Ret a.
Global Instance result_bind : MBind result := fun A B k r =>
  match r with
  | Ret a => k a
  | Raise e => Raise e
  end.

(** ** Builtins of Python used by the model *)

(** [l[i]] on a list: a negative index counts from the end. *)
Definition list_getitem {A} (l : list A) (i : Z) : result A :=
  let n := Z.of_nat (length l) in
  let j := if i <? 0 then i + n else i in
  if (0 <=? j) && (j <? n)
  then match l !! Z.to_nat j with
       | Some x => Ret x
       | None => Raise IndexError
       end
  else Raise IndexError.

(** [l.index(x)] *)
Fixpoint list_index (x : string) (l : list string) : result Z :=
  match l with
  | [] => Raise ValueError
  | y :: l' =>
      if String.eqb y x then Ret 0
      else n ← list_index x l'; Ret (n + 1)
  end.

(** [x in l] *)
Definition list_contains (x : string) (l : list string) : bool :=
  existsb (String.eqb x) l.

(** The order of [str]. *)
Definition str_le : relation string := fun a b => String.leb a b.
Definition str_lt : relation string := fun a b => String.ltb a b.

Global Instance str_le_dec : RelDecision str_le.
Proof. intros a b. unfold str_le. apply _. Defined.

Global Instance str_lt_dec : RelDecision str_lt.
Proof. intros a b. unfold str_lt. apply _. Defined.

(** [sorted(l)] on a list of [str]. *)
Definition sorted (l : list string) : list string := merge_sort str_le l.

(** [list(dict.fromkeys(l))]: the first occurrence of each key, in order. *)
Fixpoint dict_fromkeys (l : list string) : list string :=
  match l with
  | [] => []
  | k :: l' => k :: filter (fun k' => k' ≠ k) (dict_fromkeys l')
  end.

(** [key.split(".")] *)
Fixpoint split_dot (s : string) : list string :=
  match s with
  | EmptyString => [EmptyString]
  | String c s' =>
      if Ascii.eqb c "."
      then EmptyString :: split_dot s'
      else match split_dot s' with
           | piece :: pieces => String c piece :: pieces
           | [] => [String c EmptyString]
           end
  end.

(** [d[key]] on a [dict]. *)
Fixpoint dict_get (d : document) (key : string) : option bson :=
  match d with
  | [] => None
  | (k, v) :: d' => if String.eqb k key then Some v else dict_get d' key
  end.

(** [value[key]] with a [str] key: only a [dict] can be subscripted by a
    [str]; every other type raises [TypeError]. *)
Definition getitem (v : bson) (key : string) : result bson :=
  match v with
  | VDict d =>
      match dict_get d key with
      | Some x => Ret x
      | None => Raise KeyError
      end
  | _ => Raise TypeError
  end.

(** [for key in keys: value = value[key]] *)
Fixpoint walk (keys : list string) (v : bson) : result bson :=
  match keys with
  | [] => Ret v
  | key :: keys' => v' ← getitem v key; walk keys' v'
  end.

(** ** The environment of the model *)

(** [JSONOptions] of [bson.json_util] *)
Inductive JSONOptions : Type :=
| DEFAULT_JSON_OPTIONS | CANONICAL_JSON_OPTIONS | RELAXED_JSON_OPTIONS.

(** What the interpreter and the libraries fix and the source does not:
    the iteration order of a [set] of [str], and how values are printed. *)
Record Runtime : Type := {
  (** the order in which [for key in set(ks).difference(hs)] visits keys *)
  set_difference_iter : list string -> list string -> list string;
  set_difference_iter_NoDup ks hs : NoDup (set_difference_iter ks hs);
  set_difference_iter_elem ks hs k :
    k ∈ set_difference_iter ks hs <-> k ∈ ks /\ k ∉ hs;
  (** [str(value)] *)
  py_str : bson -> string;
  (** [value.replace(tzinfo=timezone.utc).astimezone().isoformat()] *)
  isoformat_local : Z -> string;
  (** [bson_util.dumps(value, indent=2, json_options=...)] *)
  bson_dumps : JSONOptions -> bson -> string
}.

(** A pymongo cursor, as the model uses it: [cursor[index]] and
    [cursor.count()], each returning or raising. *)
Record Cursor : Type := {
  cursor_getitem : Z -> result document;
  cursor_count : result Z
}.

(** A pymongo database, as [setQuery] uses it. *)
Record Database : Type := {
  (** [db[collection].find(query, no_cursor_timeout=True).sort("_id")] *)
  find_sorted : string -> document -> result Cursor;
  (** [db[collection].count_documents(query)] *)
  count_documents : string -> document -> result Z
}.

(** ** Qt *)

Inductive ItemDataRole : Type :=
| DisplayRole | ToolTipRole | UserRole | OtherRole (n : Z).

Inductive Orientation : Type :=
| Horizontal | Vertical | OtherOrientation (n : Z).

Record QModelIndex : Type := {
  isValid : bool;
  row : Z;
  column : Z
}.

(** [QModelIndex()] *)
Definition QModelIndex_invalid : QModelIndex :=
  {| isValid := false; row := -1; column := -1 |}.

(** The calls of the model into [QAbstractTableModel] that notify views. *)
Inductive signal : Type :=
| beginResetModel
| endResetModel
| beginInsertColumns (first last : Z)
| endInsertColumns
| beginRemoveRows (first last : Z)
| endRemoveRows.

(** What a method returns to Python. *)
Inductive pyobj : Type :=
| QVariant                 (* [QVariant()], the invalid variant *)
| PyNone
| PyStr (s : string)
| PyInt (n : Z)
| PyValue (v : bson).

(** A [str] computed by [str(...)]: its text, or the default rendering
    [<class_name object at 0x...>] of an object without [__str__], whose
    address part is not modelled. *)
Inductive pystr : Type :=
| Str (s : string)
| DefaultRepr (class_name : string).

(** ** The instance *)

(** What happens during a call, in order. *)
Inductive event : Type :=
| Signal (s : signal) (rows : Z) (columns : list string)
    (* a notification, with [n_docs] and [header] as they are when it is sent *)
| CursorGetItem (index : Z)      (* [self.cursor[index]] *)
| CursorCount                    (* [self.cursor.count()] *)
| DbFind
| DbCountDocuments
| CacheClear.                    (* [cache_clear()] on the installed cache *)

(** The state of [functools.lru_cache(maxsize)(func)]: the entries, most
    recently used first. *)
Record LruCache : Type := {
  maxsize : Z;
  entries : list (Z * option document)
}.

Record Model : Type := {
  max_nesting : Z;
  bson_options : JSONOptions;
  header : list string;
  cursor : option Cursor;
  n_docs : Z;
  _instance_lru_cache_size : Z;
  (** the instance attribute [documentAtIndex] that [instance_lru_cache]
      installs at the first call; [None] before it *)
  documentAtIndex_cache : option LruCache;
  log : list event
}.

Definition set_header (h : list string) (self : Model) : Model :=
  {| max_nesting := max_nesting self; bson_options := bson_options self;
     header := h; cursor := cursor self; n_docs := n_docs self;
     _instance_lru_cache_size := _instance_lru_cache_size self;
     documentAtIndex_cache := documentAtIndex_cache self; log := log self |}.

Definition set_cursor (c : option Cursor) (self : Model) : Model :=
  {| max_nesting := max_nesting self; bson_options := bson_options self;
     header := header self; cursor := c; n_docs := n_docs self;
     _instance_lru_cache_size := _instance_lru_cache_size self;
     documentAtIndex_cache := documentAtIndex_cache self; log := log self |}.

Definition set_n_docs (n : Z) (self : Model) : Model :=
  {| max_nesting := max_nesting self; bson_options := bson_options self;
     header := header self; cursor := cursor self; n_docs := n;
     _instance_lru_cache_size := _instance_lru_cache_size self;
     documentAtIndex_cache := documentAtIndex_cache self; log := log self |}.

Definition set_cache (c : option LruCache) (self : Model) : Model :=
  {| max_nesting := max_nesting self; bson_options := bson_options self;
     header := header self; cursor := cursor self; n_docs := n_docs self;
     _instance_lru_cache_size := _instance_lru_cache_size self;
     documentAtIndex_cache := c; log := log self |}.

Definition add_event (e : event) (self : Model) : Model :=
  {| max_nesting := max_nesting self; bson_options := bson_options self;
     header := header self; cursor := cursor self; n_docs := n_docs self;
     _instance_lru_cache_size := _instance_lru_cache_size self;
     documentAtIndex_cache := documentAtIndex_cache self;
     log := log self ++ [e] |}.

(** ** Methods: state and exceptions *)

(** A method body: it runs on the instance, returns or raises, and leaves
    the instance as it made it (also when it raises). *)
Definition M (A : Type) : Type := Model -> result A * Model.

Global Instance M_ret : MRet M := fun A a self => (Ret a, self).
Global Instance M_bind : MBind M := fun A B k m self =>
  match m self with
  | (Ret a, self') => k a self'
  | (Raise e, self') => (Raise e, self')
  end.

Definition raise {A} (e : exn) : M A := fun self => (Raise e, self).
Definition get : M Model := fun self => (Ret self, self).
Definition modify (f : Model -> Model) : M unit := fun self => (Ret (), f self).
Definition lift {A} (r : result A) : M A := fun self => (r, self).

(** [try: m  except handled: handler] *)
Definition try_except {A} (m : M A) (handled : exn -> bool) (handler : M A)
  : M A := fun self =>
  match m self with
  | (Raise e, self') => if handled e then handler self' else (Raise e, self')
  | r => r
  end.

(** A notification: the view reads [rowCount()] and the header when it
    arrives. *)
Definition emit (s : signal) : M unit := fun self =>
  (Ret (), add_event (Signal s (n_docs self) (header self)) self).

Definition record (e : event) : M unit := modify (add_event e).

(** ** [instance_lru_cache] and [functools.lru_cache] *)

(** The cached result of a key, if any. *)
Fixpoint lru_lookup (key : Z) (es : list (Z * option document))
  : option (option document) :=
  match es with
  | [] => None
  | (k, r) :: es' => if k =? key then Some r else lru_lookup key es'
  end.

Definition lru_remove (key : Z) (es : list (Z * option document))
  : list (Z * option document) :=
  filter (fun e => e.1 ≠ key) es.

(** A hit makes the entry the most recently used. *)
Definition lru_touch (key : Z) (r : option document)
    (es : list (Z * option document)) : list (Z * option document) :=
  (key, r) :: lru_remove key es.

(** After a miss the result is stored: not again when the call itself stored
    the key, in place of the least recently used entry when the cache is
    full, as a new entry otherwise. *)
Definition lru_store (size : Z) (key : Z) (r : option document)
    (es : list (Z * option document)) : list (Z * option document) :=
  match lru_lookup key es with
  | Some _ => es
  | None =>
      if Z.of_nat (length es) <? size
      then (key, r) :: es
      else (key, r) :: removelast es
  end.

(** [functools.lru_cache(maxsize, typed)] creates a cache of [max 0 maxsize]
    entries. *)
Definition lru_cache (size : Z) : LruCache :=
  {| maxsize := Z.max 0 size; entries := [] |}.

Definition set_entries (es : list (Z * option document)) (c : LruCache)
  : LruCache :=
  {| maxsize := maxsize c; entries := es |}.

(** The rows the document cache holds. *)
Definition cached (self : Model) : list (Z * option document) :=
  match documentAtIndex_cache self with
  | Some c => entries c
  | None => []
  end.

(** [self.documentAtIndex.cache_clear()]: the attribute exists once the
    cache is installed. *)
Definition cache_clear : M unit := fun self =>
  match documentAtIndex_cache self with
  | Some c =>
      (Ret (), add_event CacheClear (set_cache (Some (set_entries [] c)) self))
  | None => (Raise AttributeError, self)
  end.

(** ** [BaseMongoTableModel] *)

(** [__init__] *)
Definition init (max_nesting cache_size : Z) (bson_options : JSONOptions)
  : Model :=
  {| max_nesting := max_nesting;
     bson_options := bson_options;
     header := [];
     cursor := None;
     n_docs := 0;
     _instance_lru_cache_size := cache_size;
     documentAtIndex_cache := None;
     log := [] |}.

(** [rowCount] *)
Definition rowCount (parent : QModelIndex) (self : Model) : Z :=
  if isValid parent then 0 else n_docs self.

(** [columnCount] *)
Definition columnCount (self : Model) : Z := Z.of_nat (length (header self)).

(** [headerData] *)
Definition headerData (section : Z) (orientation : Orientation)
    (role : ItemDataRole) (self : Model) : result pyobj :=
  match role with
  | DisplayRole =>
      match orientation with
      | Horizontal =>
          match list_getitem (header self) section with
          | Ret name => Ret (PyStr name)
          | Raise IndexError => Ret QVariant
          | Raise e => Raise e
          end
      | Vertical => Ret (PyInt (section + 1))
      | OtherOrientation _ => Ret QVariant
      end
  | _ => Ret QVariant
  end.

(** The body of [documentAtIndex], under the decorator. *)
Definition documentAtIndex_func (index : Z) : M (option document) :=
  self ← get;
  match cursor self with
  | None => raise TypeError     (* [None[index]] *)
  | Some c =>
      record (CursorGetItem index);;
      match cursor_getitem c index with
      | Ret doc => mret (Some doc)
      | Raise IndexError =>
          record CursorCount;;
          n_docs' ← lift (cursor_count c);
          let n_docs_delta := n_docs' - n_docs self in
          (if n_docs_delta <? 0
           then emit (beginRemoveRows (n_docs self + n_docs_delta)
                                      (n_docs self - 1));;
                modify (set_n_docs n_docs');;
                emit endRemoveRows
           else mret ());;
          cache_clear;;
          mret None
      | Raise PyMongoError => mret None
      | Raise e => raise e
      end
  end.

(** The wrapper that [functools.lru_cache] puts around the body. *)
Definition lru_cache_wrapper (index : Z) : M (option document) := fun self =>
  match documentAtIndex_cache self with
  | None => (Raise AttributeError, self)
  | Some c =>
      if maxsize c =? 0
      then documentAtIndex_func index self
      else
        match lru_lookup index (entries c) with
        | Some r =>
            (Ret r,
             set_cache (Some (set_entries (lru_touch index r (entries c)) c))
                       self)
        | None =>
            match documentAtIndex_func index self with
            | (Ret r, self') =>
                (Ret r,
                 set_cache
                   (Some (set_entries
                            (lru_store (maxsize c) index r (cached self')) c))
                   self')
            | (Raise e, self') => (Raise e, self')
            end
        end
  end.

(** [documentAtIndex]: the first call on an instance installs the cache
    ([lru_cache_factory]); every call then goes through it. *)
Definition documentAtIndex (index : Z) : M (option document) := fun self =>
  match documentAtIndex_cache self with
  | None =>
      lru_cache_wrapper index
        (set_cache (Some (lru_cache (_instance_lru_cache_size self))) self)
  | Some _ => lru_cache_wrapper index self
  end.

(** The range of a C [int]. *)
Definition in_c_int (n : Z) : bool :=
  (-2147483648 <=? n) && (n <=? 2147483647).

(** [QAbstractTableModel.index(row, column)]. PyQt converts both arguments
    to C [int] and raises [OverflowError] for a Python [int] outside that
    range; Qt then returns a valid index for a row and a column inside the
    table and [QModelIndex()] otherwise. *)
Definition index (r c : Z) (self : Model) : result QModelIndex :=
  if in_c_int r && in_c_int c
  then Ret (if (0 <=? r) && (r <? rowCount QModelIndex_invalid self)
               && (0 <=? c) && (c <? columnCount self)
            then {| isValid := true; row := r; column := c |}
            else QModelIndex_invalid)
  else Raise OverflowError.

(** [empty] *)
Definition empty (self : Model) : bool :=
  rowCount QModelIndex_invalid self =? 0.

Section WithRuntime.
Context (py : Runtime).

(** One round of the loop of [updateHeader]. *)
Definition insert_column (key : string) : M unit :=
  self ← get;
  let header' := dict_fromkeys (sorted (header self ++ [key])) in
  section ← lift (list_index key header');
  emit (beginInsertColumns section section);;
  modify (set_header header');;
  emit endInsertColumns.

Fixpoint insert_columns (new_keys : list string) : M unit :=
  match new_keys with
  | [] => mret ()
  | key :: new_keys' => insert_column key;; insert_columns new_keys'
  end.

(** [updateHeader] *)
Definition updateHeader (doc : document) : M unit :=
  self ← get;
  let doc_keys := getKeys doc (max_nesting self) None in
  let new_keys := set_difference_iter py doc_keys (header self) in
  insert_columns new_keys.

(** The best representation of a value for a role. *)
Definition represent (role : ItemDataRole) (opts : JSONOptions) (v : bson)
  : pyobj :=
  match role with
  | DisplayRole =>
      match v with
      | VObjectId _ => PyStr (py_str py v)
      | VDatetime t => PyStr (isoformat_local py t)
      | _ => PyStr (py_str py v)
      end
  | ToolTipRole => PyStr (bson_dumps py opts v)
  | UserRole => PyValue v
  | OtherRole _ => QVariant
  end.

(** The [try] block of [data]: the value of the field under a header key. *)
Definition field_value (hdr : list string) (col : Z) (doc : document)
  : result bson :=
  key ← list_getitem hdr col;
  walk (split_dot key) (VDict doc).

(** [data] *)
Definition data (idx : QModelIndex) (role : ItemDataRole) : M pyobj :=
  if negb (isValid idx) then mret QVariant
  else
    doc ← documentAtIndex (row idx);
    match doc with
    | None => mret QVariant
    | Some doc =>
        updateHeader doc;;
        self ← get;
        match field_value (header self) (column idx) doc with
        | Raise IndexError | Raise KeyError => mret QVariant
        | Raise e => raise e
        | Ret v => mret (represent role (bson_options self) v)
        end
    end.

(** [value] *)
Definition value (r : Z) (field : string) (role : ItemDataRole)
  : M pyobj :=
  self ← get;
  if list_contains field (header self)
  then
    col ← lift (list_index field (header self));
    idx ← lift (index r col self);
    data idx role
  else mret PyNone.

(** [str(x)] for what [value] returns. *)
Definition str (x : pyobj) : pystr :=
  match x with
  | QVariant => DefaultRepr "PyQt5.QtCore.QVariant"
  | PyNone => Str "None"
  | PyStr s => Str s
  | PyInt n => Str (py_str py (VInt n))
  | PyValue v => Str (py_str py v)
  end.

(** [documentIdAtIndex] *)
Definition documentIdAtIndex (i : Z) : M pystr :=
  x ← value i "_id" UserRole;
  mret (str x).

(** [setQuery] *)
Definition setQuery (db : Database) (collection : string) (query : document)
  : M unit :=
  emit beginResetModel;;
  record DbFind;;
  c ← lift (find_sorted db collection query);
  modify (set_cursor (Some c));;
  record DbCountDocuments;;
  n ← lift (count_documents db collection query);
  modify (set_n_docs n);;
  try_except cache_clear (fun e => bool_decide (e = AttributeError)) (mret ());;
  modify (set_header ["_id"]);;
  emit endResetModel.

End WithRuntime.

(** ** Calls on an instance during the lifetime of a query *)

(** The store changes under the cursor: the same cursor object answers
    differently from now on. *)
Definition store_changes (c : Cursor) (self : Model) : Model :=
  match cursor self with
  | Some _ => set_cursor (Some c) self
  | None => self
  end.

(** What a client, or the store, does to an instance between two
    submissions of a query. *)
Inductive call : Type :=
| Data (idx : QModelIndex) (role : ItemDataRole)
| Value (r : Z) (field : string) (role : ItemDataRole)
| DocumentIdAtIndex (i : Z)
| DocumentAtIndex (i : Z)
| UpdateHeader (doc : document)
| StoreChanges (c : Cursor).

Definition perform (py : Runtime) (c : call) (self : Model) : Model :=
  match c with
  | Data idx role => (data py idx role self).2
  | Value r field role => (value py r field role self).2
  | DocumentIdAtIndex i => (documentIdAtIndex py i self).2
  | DocumentAtIndex i => (documentAtIndex i self).2
  | UpdateHeader doc => (updateHeader py doc self).2
  | StoreChanges c => store_changes c self
  end.

Definition run (py : Runtime) (cs : list call) (self : Model) : Model :=
  foldl (fun s c => perform py c s) self cs.

(** The column identifiers of the document that [data] passes to
    [updateHeader], if it fetches one. *)
Definition data_discovers (idx : QModelIndex) (self : Model) : list string :=
  if isValid idx
  then match documentAtIndex (row idx) self with
       | (Ret (Some doc), self') => getKeys doc (max_nesting self') None
       | _ => []
       end
  else [].

Definition value_discovers (r : Z) (field : string) (self : Model)
  : list string :=
  if list_contains field (header self)
  then match list_index field (header self) with
       | Ret col =>
           match index r col self with
           | Ret idx => data_discovers idx self
           | Raise _ => []
           end
       | Raise _ => []
       end
  else [].

(** The column identifiers a call hands to [updateHeader]. *)
Definition discovers (c : call) (self : Model) : list string :=
  match c with
  | Data idx _ => data_discovers idx self
  | Value r field _ => value_discovers r field self
  | DocumentIdAtIndex i => value_discovers i "_id" self
  | DocumentAtIndex _ => []
  | UpdateHeader doc => getKeys doc (max_nesting self) None
  | StoreChanges _ => []
  end.

(** All column identifiers discovered by a sequence of calls. *)
Fixpoint discovered_by (py : Runtime) (cs : list call) (self : Model)
  : list string :=
  match cs with
  | [] => []
  | c :: cs' => discovers c self ++ discovered_by py cs' (perform py c self)
  end.

(** The notifications of an update of the header, read by a view: each new
    column is announced at the position it takes in the header that is in
    place when the insertion ends. *)
Inductive column_insertions (rows : Z)
  : list string -> list event -> list string -> Prop :=
| insertions_done h : column_insertions rows h [] h
| insertions_next h key section h' evs h'' :
    key ∉ h ->
    0 <= section ->
    h' !! Z.to_nat section = Some key ->
    h' = dict_fromkeys (sorted (h ++ [key])) ->
    column_insertions rows h' evs h'' ->
    column_insertions rows h
      (Signal (beginInsertColumns section section) rows h
         :: Signal endInsertColumns rows h' :: evs)
      h''.

(** The events of a call: what it appends to the log. *)
Definition events_of (before after : Model) (evs : list event) : Prop :=
  log after = log before ++ evs.

Definition is_fetch (e : event) : bool :=
  match e with CursorGetItem _ => true | _ => false end.

Definition is_signal (e : event) : bool :=
  match e with Signal _ _ _ => true | _ => false end.

(** ** A runtime to evaluate examples with *)

(** Sets iterate in the order of insertion; scalars print as Python prints
    them, containers by their type name. *)
Definition sample_str (v : bson) : string :=
  match v with
  | VNone => "None"
  | VBool true => "True"
  | VBool false => "False"
  | VInt n => pretty n
  | VStr s => s
  | VObjectId hex => hex
  | VDatetime t => pretty t
  | VList _ => "list"
  | VDict _ => "dict"
  end.

Program Definition sample_runtime : Runtime :=
  {| set_difference_iter ks hs := remove_dups (list_difference ks hs);
     py_str := sample_str;
     isoformat_local t := pretty t;
     bson_dumps _ v := sample_str v |}.
Next Obligation. intros. apply NoDup_remove_dups. Qed.
Next Obligation.
  intros. rewrite elem_of_remove_dups. apply list_elem_of_difference.
Qed.

(** ** Running method bodies *)

(** Unfolds the plumbing of [M] in the goal. *)
Ltac unfold_M :=
  unfold mbind, M_bind, mret, M_ret, result_bind, result_ret, emit, record,
    modify, get, raise, lift, try_except in *.

(** What [updateHeader] leaves alone. *)
Definition same_but_header (self self' : Model) : Prop :=
  max_nesting self' = max_nesting self
  /\ bson_options self' = bson_options self
  /\ cursor self' = cursor self
  /\ n_docs self' = n_docs self
  /\ _instance_lru_cache_size self' = _instance_lru_cache_size self
  /\ documentAtIndex_cache self' = documentAtIndex_cache self.

(** The cache that serves the next call of [documentAtIndex]: the installed
    one, or the one the first call will install. *)
Definition cache_of (self : Model) : LruCache :=
  match documentAtIndex_cache self with
  | Some c => c
  | None => lru_cache (_instance_lru_cache_size self)
  end.

Definition capacity (self : Model) : Z := maxsize (cache_of self).

(** What [data] makes of the outcome of its [try] block. *)
Definition cell_of (py : Runtime) (role : ItemDataRole) (opts : JSONOptions)
    (field : result bson) : result pyobj :=
  match field with
  | Ret v => Ret (represent py role opts v)
  | Raise IndexError | Raise KeyError => Ret QVariant
  | Raise e => Raise e
  end.

(** ** Documents and stores used in examples *)

Definition nested_example : document :=
  [("_id", VInt 1); ("a", VDict [("b", VInt 2); ("c", VInt 3)])].

(** A cursor over a result set held as a list, as pymongo answers when the
    store is reachable: [cursor[i]] raises [IndexError] for a negative index
    and for an index past the last document. *)
Definition list_cursor (docs : list document) : Cursor :=
  {| cursor_getitem i :=
       if i <? 0 then Raise IndexError
       else match docs !! Z.to_nat i with
            | Some doc => Ret doc
            | None => Raise IndexError
            end;
     cursor_count := Ret (Z.of_nat (length docs)) |}.

(** The cursor when the store cannot be reached. *)
Definition offline_cursor : Cursor :=
  {| cursor_getitem _ := Raise PyMongoError;
     cursor_count := Raise PyMongoError |}.

(** A database whose collections all hold [docs], every query matching all
    of them. *)
Definition list_db (docs : list document) : Database :=
  {| find_sorted _ _ := Ret (list_cursor docs);
     count_documents _ _ := Ret (Z.of_nat (length docs)) |}.

Definition valid_index (r c : Z) : QModelIndex :=
  {| isValid := true; row := r; column := c |}.

Definition d0 : document := [("_id", VInt 0)].
Definition d1 : document := [("_id", VInt 1)].
Definition d2 : document := [("_id", VInt 2)].

(** A model of three rows, of which the first two have been shown. *)
Definition three_rows : Model :=
  run sample_runtime
    [Data (valid_index 0 0) DisplayRole; Data (valid_index 1 0) DisplayRole]
    (setQuery (list_db [d0; d1; d2]) "c" [] (init 0 50 DEFAULT_JSON_OPTIONS)).2.

(** ... after [d1] was deleted from the store. *)
Definition three_rows_shrunk : Model :=
  store_changes (list_cursor [d0; d2]) three_rows.

(** A document in which [a] is a number and a key sorts before [_id]. *)
Definition sparse_doc : document :=
  [("_id", VInt 2); ("a", VInt 5); ("Z", VNone)].

(** A model with one level of nesting on a result set of two documents of
    different shapes, right after the query. *)
Definition nested_model : Model :=
  (setQuery (list_db [nested_example; sparse_doc]) "c" []
            (init 1 50 DEFAULT_JSON_OPTIONS)).2.

(** Showing the first cell of both rows. *)
Definition show_both_rows : list call :=
  [Data (valid_index 0 0) DisplayRole; Data (valid_index 1 0) DisplayRole].

(** A model whose cache holds one document, after its first row was shown
    and the store went away. *)
Definition one_slot_offline : Model :=
  store_changes offline_cursor
    (run sample_runtime [Data (valid_index 0 0) DisplayRole]
       (setQuery (list_db [d0; d1; d2]) "c" []
                 (init 0 1 DEFAULT_JSON_OPTIONS)).2).

(** The model of three rows, the store gone. *)
Definition three_rows_offline : Model :=
  store_changes offline_cursor three_rows.


(** ** Paths and well-formed documents *)

(** [sep.join(pieces)] with [sep = "."]. *)
Definition join_dot (pieces : list string) : string :=
  String.concat "." pieces.

(** ["." in s] *)
Fixpoint has_dot (s : string) : bool :=
  match s with
  | EmptyString => false
  | String c s' => Ascii.eqb c "." || has_dot s'
  end.

(** A document as a Python [dict] really is, with field names that are not
    dotted: at every level the keys are distinct and contain no dot. *)
Inductive plain_keys : document -> Prop :=
| plain_keys_intro doc :
    NoDup doc.*1 ->
    (forall k v, (k, v) ∈ doc -> has_dot k = false) ->
    (forall k sub, (k, VDict sub) ∈ doc -> plain_keys sub) ->
    plain_keys doc.

(** The model of three rows after the store went away while row 2 was
    fetched, and came back. *)
Definition three_rows_back_online : Model :=
  store_changes (list_cursor [d0; d1; d2])
    (documentAtIndex 2 three_rows_offline).2.

(** ** Sessions: queries and calls from construction on *)

(** What happens to an instance over its life: a query is submitted, or one
    of the calls of a query lifetime is made. *)
Inductive session_step : Type :=
| Submit (db : Database) (collection : string) (query : document)
| Do (c : call).

Definition session_perform (py : Runtime) (s : session_step) (self : Model)
  : Model :=
  match s with
  | Submit db collection query => (setQuery db collection query self).2
  | Do c => perform py c self
  end.

Definition session (py : Runtime) (steps : list session_step) (self : Model)
  : Model :=
  foldl (fun s step => session_perform py step s) self steps.

(** The configuration given to [__init__]. *)
Definition same_config (self self' : Model) : Prop :=
  max_nesting self' = max_nesting self
  /\ bson_options self' = bson_options self
  /\ _instance_lru_cache_size self' = _instance_lru_cache_size self
  /\ capacity self' = capacity self.

(** The cache holds at most [capacity] rows, each once. *)
Definition cache_sound (self : Model) : Prop :=
  Z.of_nat (length (cached self)) <= capacity self
  /\ NoDup (cached self).*1.

(** What holds of an instance at every moment of a session. *)
Definition well_kept (self : Model) : Prop :=
  0 <= capacity self
  /\ cache_sound self
  /\ StronglySorted str_lt (header self).

(** Notifications that come in pairs: every [begin...] of rows or columns is
    followed at once by its [end...], and nothing announces a reset. *)
Inductive paired : list event -> Prop :=
| paired_nil : paired []
| paired_quiet e evs :
    is_signal e = false -> paired evs -> paired (e :: evs)
| paired_remove first last rows hdr rows' hdr' evs :
    paired evs ->
    paired (Signal (beginRemoveRows first last) rows hdr
              :: Signal endRemoveRows rows' hdr' :: evs)
| paired_insert first last rows hdr rows' hdr' evs :
    paired evs ->
    paired (Signal (beginInsertColumns first last) rows hdr
              :: Signal endInsertColumns rows' hdr' :: evs).

(** What a call adds to the log comes in pairs. *)
Definition logs_paired (self self' : Model) : Prop :=
  exists evs, log self' = log self ++ evs /\ paired evs.

(** A model whose query matched no document. *)
Definition empty_query_model : Model :=
  (setQuery (list_db []) "c" [] (init 0 50 DEFAULT_JSON_OPTIONS)).2.

(** * Theorems *)

(** ** Discovery of column identifiers *)

(** The loop body of [getKeys], as the source writes it. *)
Lemma getKeys_item_eq depth nested_key v :
  getKeys_item depth nested_key v =
  match v with
  | VDict d =>
      if 0 <? depth then getKeys d (depth - 1) (Some nested_key)
      else [nested_key]
  | _ => [nested_key]
  end.
Proof. destruct v; reflexivity. Qed.

(** The recursion equation of [getKeys], as the source writes it. *)
Lemma getKeys_cons key v doc depth root :
  getKeys ((key, v) :: doc) depth root =
  (let nested_key := nested_key_of root key in
   match v with
   | VDict d =>
       if 0 <? depth then getKeys d (depth - 1) (Some nested_key)
       else [nested_key]
   | _ => [nested_key]
   end) ++ getKeys doc depth root.
Proof.
  unfold getKeys at 1. simpl. rewrite getKeys_item_eq. reflexivity.
Qed.

Lemma elem_of_getKeys path doc depth root :
  path ∈ getKeys doc depth root <->
  exists key v, (key, v) ∈ doc /\
                path ∈ getKeys_item depth (nested_key_of root key) v.
Proof.
  unfold getKeys. rewrite list_elem_of_In, in_flat_map. split.
  - intros [[key v] [Hin Hp]]. exists key, v.
    rewrite !list_elem_of_In. auto.
  - intros (key & v & Hin & Hp). exists (key, v).
    rewrite <- !list_elem_of_In. auto.
Qed.

Lemma getKeys_discovered_fuel (n : nat) :
  forall depth doc root path,
    Z.to_nat depth = n ->
    path ∈ getKeys doc depth root <-> discovered depth root doc path.
Proof.
  induction n as [|n IH]; intros depth doc root path Hn.
  - (* no budget left: every key is flat *)
    assert (Hd : (0 <? depth) = false) by (apply Z.ltb_ge; lia).
    rewrite elem_of_getKeys. split.
    + intros (key & v & Hin & Hp).
      rewrite getKeys_item_eq, Hd in Hp.
      assert (path = nested_key_of root key) as ->.
      { destruct v; apply list_elem_of_singleton in Hp; exact Hp. }
      apply discovered_flat with v; [exact Hin | lia].
    + intros H. destruct H as [b r d key v Hin Hno | b r d key sub p Hin Hpos _].
      * exists key, v. split; [exact Hin|].
        rewrite getKeys_item_eq, Hd.
        destruct v; apply list_elem_of_singleton; reflexivity.
      * lia.
  - assert (Hd : (0 <? depth) = true) by (apply Z.ltb_lt; lia).
    assert (Hn' : Z.to_nat (depth - 1) = n) by lia.
    rewrite elem_of_getKeys. split.
    + intros (key & v & Hin & Hp).
      rewrite getKeys_item_eq in Hp.
      destruct v;
        try (apply list_elem_of_singleton in Hp; subst path;
             eapply discovered_flat; [exact Hin | simpl; intros [? _]; discriminate]).
      rewrite Hd in Hp.
      apply discovered_nested with key items; [exact Hin | lia |].
      apply IH; [exact Hn' | exact Hp].
    + intros H. destruct H as [b r d key v Hin Hno | b r d key sub p Hin Hpos Hsub].
      * exists key, v. split; [exact Hin|].
        rewrite getKeys_item_eq.
        destruct v; try (apply list_elem_of_singleton; reflexivity).
        exfalso. apply Hno. split; [reflexivity | lia].
      * exists key, (VDict sub). split; [exact Hin|].
        rewrite getKeys_item_eq, Hd. apply IH; [exact Hn' | exact Hsub].
Qed.

(** C7. Nested discovery depth rule: for every document and every nesting
    budget, the identifiers that [getKeys] returns are exactly the dotted
    paths of the rule "expand a key iff its value is a nested document and
    the remaining budget is positive, keep it flat otherwise"; the document
    [{"_id": 1, "a": {"b": 2, "c": 3}}] gives [_id, a.b, a.c] (and not [a])
    at budget 1 and [_id, a] at budget 0. *)
Theorem getKeys_depth_rule :
  (forall (m : Z) (doc : document) (path : string),
      path ∈ getKeys doc m None <-> discovered m None doc path)
  /\ getKeys nested_example 1 None = ["_id"; "a.b"; "a.c"]
  /\ ("a" ∉ getKeys nested_example 1 None)
  /\ getKeys nested_example 0 None = ["_id"; "a"].
Proof.
  split; [|split; [|split]].
  - intros m doc path. apply (getKeys_discovered_fuel (Z.to_nat m)). reflexivity.
  - reflexivity.
  - vm_compute. intros H. repeat (inversion H as [|? ? ? H']; subst; clear H; rename H' into H).
  - reflexivity.
Qed.

(** ** The order of [str] and [sorted] *)

Lemma str_le_alt a b : str_le a b <-> String.compare a b <> Gt.
Proof.
  unfold str_le, String.leb. destruct (String.compare a b); simpl; split;
    intros H; try exact I; try discriminate; try (exfalso; apply H; reflexivity);
    try (destruct H).
Qed.

Lemma str_lt_alt a b : str_lt a b <-> String.compare a b = Lt.
Proof.
  unfold str_lt, String.ltb. destruct (String.compare a b); simpl; split;
    intros H; try exact I; try discriminate; try reflexivity; destruct H.
Qed.

Lemma str_lt_le_ne a b : str_lt a b <-> str_le a b /\ a <> b.
Proof.
  rewrite str_lt_alt, str_le_alt. split.
  - intros H. split; [congruence|]. intros ->.
    assert (String.compare b b = Eq) as E
      by (apply OrderedTypeEx.String_as_OT.cmp_eq; reflexivity).
    congruence.
  - intros [H1 H2]. destruct (String.compare a b) eqn:E; try congruence.
    apply OrderedTypeEx.String_as_OT.cmp_eq in E. contradiction.
Qed.

Global Instance str_le_refl : Reflexive str_le.
Proof.
  intros a. apply str_le_alt.
  assert (String.compare a a = Eq) as ->
    by (apply OrderedTypeEx.String_as_OT.cmp_eq; reflexivity).
  discriminate.
Qed.

Global Instance str_lt_trans : Transitive str_lt.
Proof.
  intros a b c. rewrite !str_lt_alt.
  change (String.compare) with OrderedTypeEx.String_as_OT.cmp.
  rewrite !OrderedTypeEx.String_as_OT.cmp_lt.
  apply OrderedTypeEx.String_as_OT.lt_trans.
Qed.

Global Instance str_le_trans : Transitive str_le.
Proof.
  intros a b c Hab Hbc.
  destruct (decide (a = b)) as [->|Hne1]; [exact Hbc|].
  destruct (decide (b = c)) as [->|Hne2]; [exact Hab|].
  assert (str_lt a c) as H.
  { transitivity b; apply str_lt_le_ne; split; assumption. }
  apply str_lt_le_ne in H. tauto.
Qed.

Global Instance str_le_total : Total str_le.
Proof.
  intros a b. unfold str_le.
  destruct (String.leb_total a b) as [H|H]; rewrite H; [left|right]; exact I.
Qed.

Global Instance str_le_antisym : AntiSymm (=) str_le.
Proof.
  intros a b Hab Hba. unfold str_le in *.
  apply String.leb_antisym; apply Is_true_true; assumption.
Qed.

Global Instance str_lt_antisym : AntiSymm (=) str_lt.
Proof.
  intros a b Hab Hba. exfalso.
  assert (str_lt a a) as H by (transitivity b; assumption).
  apply str_lt_le_ne in H. tauto.
Qed.

Lemma sorted_StronglySorted l : StronglySorted str_le (sorted l).
Proof. apply StronglySorted_merge_sort; apply _. Qed.

Lemma elem_of_sorted k l : k ∈ sorted l <-> k ∈ l.
Proof. unfold sorted. rewrite merge_sort_Permutation. reflexivity. Qed.

(** ** [dict.fromkeys] *)

Lemma elem_of_dict_fromkeys k l : k ∈ dict_fromkeys l <-> k ∈ l.
Proof.
  induction l as [|x l IH]; simpl; [reflexivity|].
  rewrite !elem_of_cons, list_elem_of_filter, IH.
  destruct (decide (k = x)); tauto.
Qed.

Lemma NoDup_dict_fromkeys l : NoDup (dict_fromkeys l).
Proof.
  induction l as [|x l IH]; simpl; constructor.
  - rewrite list_elem_of_filter. tauto.
  - apply NoDup_filter, IH.
Qed.

Lemma StronglySorted_filter {A} (R : relation A) (P : A -> Prop)
    `{forall x, Decision (P x)} l :
  StronglySorted R l -> StronglySorted R (filter P l).
Proof.
  induction 1 as [|x l Hs IH Hall]; [constructor|].
  rewrite filter_cons. destruct (decide (P x)); [|exact IH].
  constructor; [exact IH|].
  rewrite Forall_forall in *. intros y Hy.
  apply list_elem_of_filter in Hy. apply Hall, Hy.
Qed.

(** Dropping the repeated keys of a sorted list leaves it strictly sorted. *)
Lemma dict_fromkeys_sorted l :
  StronglySorted str_le l -> StronglySorted str_lt (dict_fromkeys l).
Proof.
  induction 1 as [|x l Hs IH Hall]; simpl; constructor.
  - apply StronglySorted_filter, IH.
  - rewrite Forall_forall in *. intros y Hy.
    apply list_elem_of_filter in Hy as [Hne Hy].
    rewrite elem_of_dict_fromkeys in Hy.
    apply str_lt_le_ne. split; [apply Hall, Hy | congruence].
Qed.

Lemma StronglySorted_str_lt_NoDup l : StronglySorted str_lt l -> NoDup l.
Proof.
  induction 1 as [|x l Hs IH Hall]; constructor; [|exact IH].
  intros Hx. rewrite Forall_forall in Hall. apply Hall in Hx.
  apply str_lt_le_ne in Hx. tauto.
Qed.

(** A strictly sorted list is determined by its elements. *)
Lemma strictly_sorted_unique l1 l2 :
  StronglySorted str_lt l1 -> StronglySorted str_lt l2 ->
  (forall k, k ∈ l1 <-> k ∈ l2) -> l1 = l2.
Proof.
  intros H1 H2 Heq. apply (StronglySorted_unique str_lt); [assumption..|].
  apply NoDup_Permutation; auto using StronglySorted_str_lt_NoDup.
Qed.

(** The header that one round of [updateHeader] computes. *)
Lemma sorted_header_spec h key :
  let h' := dict_fromkeys (sorted (h ++ [key])) in
  StronglySorted str_lt h' /\ (forall k, k ∈ h' <-> k ∈ h \/ k = key).
Proof.
  simpl. split.
  - apply dict_fromkeys_sorted, sorted_StronglySorted.
  - intros k. rewrite elem_of_dict_fromkeys, elem_of_sorted, elem_of_app,
      list_elem_of_singleton. reflexivity.
Qed.

(** [l.index(k)] finds the first position of a member. *)
Lemma list_index_elem_of k l :
  k ∈ l -> exists n, list_index k l = Ret n /\ 0 <= n /\ l !! Z.to_nat n = Some k.
Proof.
  induction l as [|x l IH]; intros Hin; [inversion Hin|].
  simpl. destruct (String.eqb x k) eqn:E.
  - apply String.eqb_eq in E as ->. exists 0. auto with lia.
  - apply String.eqb_neq in E.
    apply elem_of_cons in Hin as [->|Hin]; [congruence|].
    destruct (IH Hin) as (n & -> & Hn & Hl). exists (n + 1). simpl.
    split; [reflexivity|]. split; [lia|].
    replace (Z.to_nat (n + 1)) with (S (Z.to_nat n)) by lia. exact Hl.
Qed.

Lemma list_contains_elem_of k l : list_contains k l = true <-> k ∈ l.
Proof.
  unfold list_contains. rewrite existsb_exists. split.
  - intros (x & Hin & E). apply String.eqb_eq in E as ->.
    apply list_elem_of_In, Hin.
  - intros Hin. exists k. split; [apply list_elem_of_In, Hin|].
    apply String.eqb_refl.
Qed.

Lemma same_but_header_refl self : same_but_header self self.
Proof. repeat split. Qed.

Lemma same_but_header_trans s1 s2 s3 :
  same_but_header s1 s2 -> same_but_header s2 s3 -> same_but_header s1 s3.
Proof. unfold same_but_header. intuition congruence. Qed.

(** ** [updateHeader] *)

Lemma insert_column_spec key self :
  let h' := dict_fromkeys (sorted (header self ++ [key])) in
  exists section,
    0 <= section /\ h' !! Z.to_nat section = Some key /\
    insert_column key self =
    (Ret (),
     add_event (Signal endInsertColumns (n_docs self) h')
       (set_header h'
          (add_event (Signal (beginInsertColumns section section)
                             (n_docs self) (header self)) self))).
Proof.
  intros h'.
  assert (key ∈ h') as Hin.
  { apply sorted_header_spec. right. reflexivity. }
  destruct (list_index_elem_of key h' Hin) as (section & Hidx & Hpos & Hl).
  exists section. split; [exact Hpos|]. split; [exact Hl|].
  unfold insert_column. unfold_M. fold h'. rewrite Hidx. reflexivity.
Qed.

Lemma insert_columns_spec ks :
  forall self,
    NoDup ks -> (forall k, k ∈ ks -> k ∉ header self) ->
    exists evs self',
      insert_columns ks self = (Ret (), self')
      /\ log self' = log self ++ evs
      /\ column_insertions (n_docs self) (header self) evs (header self')
      /\ length evs = (2 * length ks)%nat
      /\ (forall k, k ∈ header self' <-> k ∈ header self \/ k ∈ ks)
      /\ (StronglySorted str_lt (header self) ->
          StronglySorted str_lt (header self'))
      /\ same_but_header self self'.
Proof.
  induction ks as [|key ks IH]; intros self Hnd Hnew.
  - exists [], self. simpl. rewrite app_nil_r.
    repeat split; auto using insertions_done, same_but_header_refl.
    + intros [H|H]; [exact H | inversion H].
  - destruct (insert_column_spec key self) as (section & Hpos & Hl & Hrun).
    set (h' := dict_fromkeys (sorted (header self ++ [key]))) in *.
    destruct (sorted_header_spec (header self) key) as [Hsorted Helem].
    fold h' in Hsorted, Helem.
    set (self1 := add_event (Signal endInsertColumns (n_docs self) h')
                    (set_header h' (add_event _ self))) in Hrun.
    apply NoDup_cons in Hnd as [Hkey Hnd].
    destruct (IH self1 Hnd) as (evs & self' & Hrec & Hlog & Hins & Hlen & Hel & Hs & Hfr).
    { intros k Hk. simpl. rewrite Helem. intros [H| ->].
      - apply (Hnew k); [right; exact Hk | exact H].
      - contradiction. }
    eexists (_ :: _ :: evs), self'.
    split.
    { simpl. unfold_M. unfold mbind, M_bind. rewrite Hrun. exact Hrec. }
    split.
    { rewrite Hlog. simpl. rewrite <- !app_assoc. reflexivity. }
    split.
    { eapply insertions_next; [| exact Hpos | exact Hl | reflexivity | exact Hins].
      apply Hnew. left. }
    split; [simpl; lia|].
    split.
    { intros k. rewrite Hel. simpl. rewrite Helem, elem_of_cons. tauto. }
    split.
    { intros _. apply Hs. exact Hsorted. }
    eapply same_but_header_trans; [|exact Hfr]. repeat split.
Qed.

Lemma updateHeader_spec py doc self :
  exists evs self',
    updateHeader py doc self = (Ret (), self')
    /\ log self' = log self ++ evs
    /\ column_insertions (n_docs self) (header self) evs (header self')
    /\ length evs =
       (2 * length (set_difference_iter py
                      (getKeys doc (max_nesting self) None) (header self)))%nat
    /\ (forall k, k ∈ header self' <->
                  k ∈ header self \/ k ∈ getKeys doc (max_nesting self) None)
    /\ (StronglySorted str_lt (header self) ->
        StronglySorted str_lt (header self'))
    /\ same_but_header self self'.
Proof.
  set (ks := set_difference_iter py (getKeys doc (max_nesting self) None)
                                 (header self)).
  destruct (insert_columns_spec ks self) as
    (evs & self' & Hrun & Hlog & Hins & Hlen & Hel & Hs & Hfr).
  { apply set_difference_iter_NoDup. }
  { intros k Hk. apply set_difference_iter_elem in Hk. tauto. }
  exists evs, self'.
  split; [exact Hrun|]. split; [exact Hlog|]. split; [exact Hins|].
  split; [exact Hlen|]. split; [|split; [exact Hs | exact Hfr]].
  intros k. rewrite Hel. unfold ks. rewrite set_difference_iter_elem.
  destruct (decide (k ∈ header self)); tauto.
Qed.

(** ** [documentAtIndex] *)

Lemma set_cache_cache_of self :
  documentAtIndex_cache self = Some (cache_of self) ->
  set_cache (Some (cache_of self)) self = self.
Proof. destruct self; simpl. unfold cache_of; simpl. intros ->. reflexivity. Qed.


(** The body, when the store cannot be reached. *)
Lemma documentAtIndex_func_unavailable self c i :
  cursor self = Some c -> cursor_getitem c i = Raise PyMongoError ->
  documentAtIndex_func i self = (Ret None, add_event (CursorGetItem i) self).
Proof.
  intros Hc Hd. unfold documentAtIndex_func. unfold_M. rewrite Hc, Hd.
  reflexivity.
Qed.


Lemma documentAtIndex_hit self i r :
  capacity self <> 0 -> lru_lookup i (cached self) = Some r ->
  documentAtIndex i self =
  (Ret r,
   set_cache (Some (set_entries (lru_touch i r (cached self)) (cache_of self)))
             self).
Proof.
  unfold documentAtIndex, lru_cache_wrapper, capacity, cache_of, cached.
  destruct (documentAtIndex_cache self) as [c|] eqn:E; simpl.
  - intros Hcap Hl. apply Z.eqb_neq in Hcap. rewrite Hcap, Hl.
    reflexivity.
  - discriminate.
Qed.

Lemma documentAtIndex_miss self i :
  capacity self = 0 \/ lru_lookup i (cached self) = None ->
  documentAtIndex i self =
  match documentAtIndex_func i (set_cache (Some (cache_of self)) self) with
  | (Ret r, s1) =>
      (Ret r,
       if capacity self =? 0 then s1
       else set_cache
              (Some (set_entries (lru_store (capacity self) i r (cached s1))
                                 (cache_of self))) s1)
  | (Raise e, s1) => (Raise e, s1)
  end.
Proof.
  intros H.
  unfold documentAtIndex, lru_cache_wrapper, capacity, cache_of, cached in *.
  destruct (documentAtIndex_cache self) as [c|] eqn:E; simpl in *.
  - replace (set_cache (Some c) self) with self
      by (rewrite <- E; destruct self; reflexivity).
    destruct (maxsize c =? 0) eqn:Ez.
    + destruct (documentAtIndex_func i self) as [[r|e] s1]; reflexivity.
    + destruct H as [H|H]; [apply Z.eqb_neq in Ez; contradiction|].
      rewrite H. reflexivity.
  - destruct (Z.max 0 (_instance_lru_cache_size self) =? 0) eqn:Ez.
    + destruct (documentAtIndex_func i _) as [[r|e] s1]; reflexivity.
    + reflexivity.
Qed.




(** ** [setQuery] *)

(** [setQuery], when it returns, leaves the header with [_id] alone. *)
Lemma setQuery_header db collection query self self' :
  setQuery db collection query self = (Ret (), self') ->
  header self' = ["_id"].
Proof.
  unfold setQuery. unfold_M. simpl.
  destruct (find_sorted db collection query) as [c|e]; simpl; [|discriminate].
  destruct (count_documents db collection query) as [n|e]; simpl;
    [|discriminate].
  unfold cache_clear. simpl.
  destruct (documentAtIndex_cache self) as [k|]; simpl;
    intros H; inversion H; reflexivity.
Qed.

(** C2. After [setQuery] returns: [rowCount ()] is the number of documents
    the store counts for the query, [columnCount ()] is 1, the header is
    exactly [_id], the document cache is empty, the cursor is the one the
    store returned for the query, and the call has sent exactly one
    [beginResetModel] (first, with the old rows and header in place) and one
    [endResetModel] (last, with the new ones in place) and no other
    notification. *)
Theorem setQuery_resets db collection query self self' :
  setQuery db collection query self = (Ret (), self') ->
  count_documents db collection query = Ret (rowCount QModelIndex_invalid self')
  /\ columnCount self' = 1
  /\ header self' = ["_id"]
  /\ cached self' = []
  /\ (exists c, find_sorted db collection query = Ret c
                 /\ cursor self' = Some c)
  /\ exists evs,
      log self' =
        log self ++ [Signal beginResetModel (n_docs self) (header self)]
                 ++ evs
                 ++ [Signal endResetModel (n_docs self') ["_id"]]
      /\ Forall (fun e => is_signal e = false) evs.
Proof.
  unfold setQuery. unfold_M. simpl.
  destruct (find_sorted db collection query) as [c|e]; simpl; [|discriminate].
  destruct (count_documents db collection query) as [n|e]; simpl;
    [|discriminate].
  unfold cache_clear. simpl.
  destruct (documentAtIndex_cache self) as [k|] eqn:Hk; simpl;
    intros H; inversion H; subst self'; clear H; unfold cached; simpl;
    rewrite ?Hk.
  - do 4 (split; [reflexivity|]). split; [exists c; split; reflexivity|].
    exists [DbFind; DbCountDocuments; CacheClear].
    split; [rewrite <- !app_assoc; reflexivity|].
    repeat constructor.
  - do 4 (split; [reflexivity|]). split; [exists c; split; reflexivity|].
    exists [DbFind; DbCountDocuments].
    split; [rewrite <- !app_assoc; reflexivity|].
    repeat constructor.
Qed.

Lemma Ret_inj {A} (a b : A) : Ret a = Ret b -> a = b.
Proof. intros H. injection H. auto. Qed.

Lemma returns_unit (p : result unit * Model) :
  p.1 = Ret () -> p = (Ret (), p.2).
Proof. destruct p as [r s]. simpl. intros ->. reflexivity. Qed.

(** A query submitted to a model that shows another result set. *)
Lemma setQuery_resets_witness :
  (setQuery (list_db [d0; d2]) "c" [] three_rows).1 = Ret ()
  /\ cached three_rows = [(1, Some d1); (0, Some d0)]
  /\ rowCount QModelIndex_invalid
       (setQuery (list_db [d0; d2]) "c" [] three_rows).2 = 2
  /\ cached (setQuery (list_db [d0; d2]) "c" [] three_rows).2 = [].
Proof.
  assert (H : (setQuery (list_db [d0; d2]) "c" [] three_rows).1 = Ret ())
    by (vm_compute; reflexivity).
  split; [exact H|]. split; [vm_compute; reflexivity|].
  destruct (setQuery_resets (list_db [d0; d2]) "c" [] three_rows _
              (returns_unit _ H))
    as (Hcount & _ & _ & Hcache & _).
  split; [|exact Hcache].
  change (Ret 2 = Ret (rowCount QModelIndex_invalid
                         (setQuery (list_db [d0; d2]) "c" [] three_rows).2))
    in Hcount.
  symmetry. apply Ret_inj. exact Hcount.
Defined.

(** ** What the calls do to the header *)

(** [documentAtIndex] never touches the header nor the nesting depth. *)
Lemma documentAtIndex_func_header i self :
  header (documentAtIndex_func i self).2 = header self
  /\ max_nesting (documentAtIndex_func i self).2 = max_nesting self.
Proof.
  unfold documentAtIndex_func. unfold_M.
  destruct (cursor self) as [c|]; [|split; reflexivity]. simpl.
  destruct (cursor_getitem c i) as [doc|[]]; simpl; try (split; reflexivity).
  destruct (cursor_count c) as [n|e]; simpl; [|split; reflexivity].
  unfold cache_clear.
  destruct (n - n_docs self <? 0); simpl;
    destruct (documentAtIndex_cache self); simpl; split; reflexivity.
Qed.

Lemma lru_cache_wrapper_header i self :
  header (lru_cache_wrapper i self).2 = header self
  /\ max_nesting (lru_cache_wrapper i self).2 = max_nesting self.
Proof.
  unfold lru_cache_wrapper.
  destruct (documentAtIndex_cache self) as [k|]; [|split; reflexivity].
  destruct (maxsize k =? 0); [apply documentAtIndex_func_header|].
  destruct (lru_lookup i (entries k)); [split; reflexivity|].
  pose proof (documentAtIndex_func_header i self) as [Hh Hm].
  destruct (documentAtIndex_func i self) as [[r|e] s1]; simpl in *;
    split; assumption.
Qed.

Lemma documentAtIndex_header i self :
  header (documentAtIndex i self).2 = header self
  /\ max_nesting (documentAtIndex i self).2 = max_nesting self.
Proof.
  unfold documentAtIndex.
  destruct (documentAtIndex_cache self) as [k|];
    [apply lru_cache_wrapper_header|].
  match goal with |- context [lru_cache_wrapper i ?s] =>
    pose proof (lru_cache_wrapper_header i s) as [Hh Hm] end.
  split; assumption.
Qed.

(** The state that [data] leaves: that of [documentAtIndex], then of
    [updateHeader] if a document was fetched. *)
Lemma data_state py idx role self :
  (data py idx role self).2 =
  if isValid idx
  then match documentAtIndex (row idx) self with
       | (Ret (Some doc), self1) => (updateHeader py doc self1).2
       | (_, self1) => self1
       end
  else self.
Proof.
  unfold data. destruct (isValid idx); simpl; [|reflexivity].
  unfold_M.
  destruct (documentAtIndex (row idx) self) as [[[doc|]|e] self1];
    try reflexivity.
  destruct (updateHeader_spec py doc self1) as (evs & self2 & Hrun & _).
  rewrite Hrun. simpl.
  destruct (field_value (header self2) (column idx) doc) as [v|[]];
    reflexivity.
Qed.

Lemma value_state py r field role self :
  (value py r field role self).2 =
  if list_contains field (header self)
  then match list_index field (header self) with
       | Ret col =>
           match index r col self with
           | Ret idx => (data py idx role self).2
           | Raise _ => self
           end
       | Raise _ => self
       end
  else self.
Proof.
  unfold value. unfold_M.
  destruct (list_contains field (header self)); [|reflexivity].
  destruct (list_index field (header self)); [|reflexivity].
  destruct (index _ _ self); reflexivity.
Qed.

Lemma documentIdAtIndex_state py i self :
  (documentIdAtIndex py i self).2 = (value py i "_id" UserRole self).2.
Proof.
  unfold documentIdAtIndex. unfold_M.
  destruct (value py i "_id" UserRole self) as [[x|e] s]; reflexivity.
Qed.

(** The header after [data]: the old one and what the call discovers. *)
Lemma data_header py idx role self :
  let self' := (data py idx role self).2 in
  (forall k, k ∈ header self' <-> k ∈ header self \/ k ∈ data_discovers idx self)
  /\ (StronglySorted str_lt (header self) -> StronglySorted str_lt (header self'))
  /\ max_nesting self' = max_nesting self.
Proof.
  simpl. rewrite data_state. unfold data_discovers.
  destruct (isValid idx).
  - pose proof (documentAtIndex_header (row idx) self) as [Hh Hm].
    destruct (documentAtIndex (row idx) self) as [[[doc|]|e] self1];
      simpl in Hh, Hm.
    + destruct (updateHeader_spec py doc self1)
        as (evs & self2 & Hrun & _ & _ & _ & Hel & Hs & Hfr).
      rewrite Hrun. simpl. rewrite <- Hh.
      split; [exact Hel|]. split; [exact Hs|].
      destruct Hfr as (Hmn & _). congruence.
    + rewrite Hh. split; [|split; auto].
      intros k. rewrite elem_of_nil. tauto.
    + rewrite Hh. split; [|split; auto].
      intros k. rewrite elem_of_nil. tauto.
  - split; [|split; auto]. intros k. rewrite elem_of_nil. tauto.
Qed.

Lemma value_header py r field role self :
  let self' := (value py r field role self).2 in
  (forall k, k ∈ header self' <->
             k ∈ header self \/ k ∈ value_discovers r field self)
  /\ (StronglySorted str_lt (header self) -> StronglySorted str_lt (header self'))
  /\ max_nesting self' = max_nesting self.
Proof.
  simpl. rewrite value_state. unfold value_discovers.
  destruct (list_contains field (header self)).
  - destruct (list_index field (header self)) as [col|e].
    + destruct (index r col self) as [idx|e].
      * apply data_header.
      * split; [|split; auto]. intros k. rewrite elem_of_nil. tauto.
    + split; [|split; auto]. intros k. rewrite elem_of_nil. tauto.
  - split; [|split; auto]. intros k. rewrite elem_of_nil. tauto.
Qed.

(** Every call keeps the header strictly sorted and adds to it exactly the
    column identifiers it discovers. *)
Lemma perform_header py c self :
  let self' := perform py c self in
  (forall k, k ∈ header self' <-> k ∈ header self \/ k ∈ discovers c self)
  /\ (StronglySorted str_lt (header self) -> StronglySorted str_lt (header self'))
  /\ max_nesting self' = max_nesting self.
Proof.
  destruct c as [idx role|r field role|i|i|doc|c]; simpl.
  - apply data_header.
  - apply value_header.
  - rewrite documentIdAtIndex_state. apply value_header.
  - pose proof (documentAtIndex_header i self) as [Hh Hm]. rewrite Hh.
    split; [|split; auto]. intros k. rewrite elem_of_nil. tauto.
  - destruct (updateHeader_spec py doc self)
      as (evs & self2 & Hrun & _ & _ & _ & Hel & Hs & Hfr).
    rewrite Hrun. simpl. split; [exact Hel|]. split; [exact Hs|].
    apply Hfr.
  - unfold store_changes. destruct (cursor self); simpl;
      (split; [|split; auto]); intros k; rewrite elem_of_nil; tauto.
Qed.

Lemma run_header py cs :
  forall self,
    let self' := run py cs self in
    (forall k, k ∈ header self' <->
               k ∈ header self \/ k ∈ discovered_by py cs self)
    /\ (StronglySorted str_lt (header self) ->
        StronglySorted str_lt (header self')).
Proof.
  induction cs as [|c cs IH]; intros self; simpl.
  - split; [|auto]. intros k. rewrite elem_of_nil. tauto.
  - destruct (perform_header py c self) as (Hel & Hs & _).
    destruct (IH (perform py c self)) as (Hel' & Hs').
    split; [|auto].
    intros k. unfold run in Hel'. rewrite Hel', Hel, elem_of_app. tauto.
Qed.

Lemma run_app py cs cs' self :
  run py (cs ++ cs') self = run py cs' (run py cs self).
Proof. unfold run. apply foldl_app. Qed.

(** C4. Header invariant: after [setQuery], and after any sequence of calls
    other than [setQuery] (cell and value lookups, document fetches, direct
    header updates, changes of the store), the header is exactly the
    lexicographically sorted, duplicate-free union of [_id] and the column
    identifiers discovered so far; hence it never loses an entry when more
    calls follow; and every update of the header announces each new key by
    one [beginInsertColumns]/[endInsertColumns] pair that names the position
    of the key in the header in place when the insertion ends. *)
Theorem header_invariant py db collection query self0 self cs :
  setQuery db collection query self0 = (Ret (), self) ->
  let h := header (run py cs self) in
  let discovered_keys := discovered_by py cs self in
  h = dict_fromkeys (sorted ("_id" :: discovered_keys))
  /\ StronglySorted str_lt h
  /\ NoDup h
  /\ (forall k, k ∈ h <-> k = "_id" \/ k ∈ discovered_keys)
  /\ (forall cs' k, k ∈ h -> k ∈ header (run py (cs ++ cs') self))
  /\ (forall doc st,
         exists evs st',
           updateHeader py doc st = (Ret (), st')
           /\ log st' = log st ++ evs
           /\ column_insertions (n_docs st) (header st) evs (header st')
           /\ length evs =
              (2 * length (set_difference_iter py
                             (getKeys doc (max_nesting st) None)
                             (header st)))%nat).
Proof.
  intros Hq h K.
  pose proof (setQuery_header _ _ _ _ _ Hq) as Hh.
  destruct (run_header py cs self) as (Hel & Hs).
  fold h K in Hel, Hs. rewrite Hh in Hel, Hs.
  assert (Hsorted : StronglySorted str_lt h).
  { apply Hs. repeat constructor. }
  assert (Helem : forall k, k ∈ h <-> k = "_id" \/ k ∈ K).
  { intros k. rewrite Hel, list_elem_of_singleton. reflexivity. }
  split.
  { apply strictly_sorted_unique; [exact Hsorted | |].
    - apply dict_fromkeys_sorted, sorted_StronglySorted.
    - intros k. rewrite Helem, elem_of_dict_fromkeys, elem_of_sorted,
        elem_of_cons. reflexivity. }
  split; [exact Hsorted|].
  split; [apply StronglySorted_str_lt_NoDup, Hsorted|].
  split; [exact Helem|].
  split.
  { intros cs' k Hk. rewrite run_app.
    apply (run_header py cs' (run py cs self)). left. exact Hk. }
  intros doc st.
  destruct (updateHeader_spec py doc st)
    as (evs & st' & Hrun & Hlog & Hins & Hlen & _).
  exists evs, st'. auto.
Qed.

(** Two rows of different shapes shown after a query. *)
Lemma header_invariant_witness :
  (setQuery (list_db [nested_example; sparse_doc]) "c" []
            (init 1 50 DEFAULT_JSON_OPTIONS)).1 = Ret ()
  /\ discovered_by sample_runtime show_both_rows nested_model
     = ["_id"; "a.b"; "a.c"; "_id"; "a"; "Z"]
  /\ header (run sample_runtime show_both_rows nested_model)
     = ["Z"; "_id"; "a"; "a.b"; "a.c"].
Proof.
  assert (H : (setQuery (list_db [nested_example; sparse_doc]) "c" []
                        (init 1 50 DEFAULT_JSON_OPTIONS)).1 = Ret ())
    by (vm_compute; reflexivity).
  split; [exact H|]. split; [vm_compute; reflexivity|].
  destruct (header_invariant sample_runtime _ _ _ _ _ show_both_rows
              (returns_unit _ H)) as (Heq & _).
  etransitivity; [exact Heq|]. vm_compute. reflexivity.
Defined.

(** ** Memoization *)

Lemma lru_lookup_store size i r es :
  lru_lookup i es = None -> lru_lookup i (lru_store size i r es) = Some r.
Proof.
  intros H. unfold lru_store. rewrite H.
  destruct (_ <? _); simpl; rewrite Z.eqb_refl; reflexivity.
Qed.

Lemma lru_lookup_touch i r es : lru_lookup i (lru_touch i r es) = Some r.
Proof. unfold lru_touch. simpl. rewrite Z.eqb_refl. reflexivity. Qed.

(** The body leaves the entries of the cache as they are, or clears them. *)
Lemma documentAtIndex_func_cached i self :
  cached (documentAtIndex_func i self).2 = cached self
  \/ cached (documentAtIndex_func i self).2 = [].
Proof.
  unfold documentAtIndex_func. unfold_M.
  destruct (cursor self) as [c|]; [|left; reflexivity]. simpl.
  destruct (cursor_getitem c i) as [doc|[]]; simpl; try (left; reflexivity).
  destruct (cursor_count c) as [n|e]; simpl; [|left; reflexivity].
  unfold cache_clear, cached.
  destruct (n - n_docs self <? 0); simpl;
    destruct (documentAtIndex_cache self) eqn:E; simpl; rewrite ?E; auto.
Qed.

Lemma cached_set_cache_of self :
  cached (set_cache (Some (cache_of self)) self) = cached self.
Proof.
  unfold cached, cache_of. simpl.
  destruct (documentAtIndex_cache self); reflexivity.
Qed.

(** A call that returns leaves its result in the cache. *)
Lemma documentAtIndex_memoizes self i r self' :
  0 < capacity self ->
  documentAtIndex i self = (Ret r, self') ->
  lru_lookup i (cached self') = Some r
  /\ capacity self' = capacity self.
Proof.
  intros Hcap Hrun.
  assert (Hne : capacity self <> 0) by lia.
  destruct (lru_lookup i (cached self)) as [r0|] eqn:Hl.
  - rewrite (documentAtIndex_hit self i r0 Hne Hl) in Hrun.
    inversion Hrun; subst. unfold cached, capacity. simpl.
    split; [apply lru_lookup_touch | reflexivity].
  - rewrite (documentAtIndex_miss self i (or_intror Hl)) in Hrun.
    pose proof (documentAtIndex_func_cached i
                  (set_cache (Some (cache_of self)) self)) as Hc.
    rewrite cached_set_cache_of in Hc.
    destruct (documentAtIndex_func i _) as [[r1|e] s1]; [|discriminate].
    apply Z.eqb_neq in Hne. rewrite Hne in Hrun.
    inversion Hrun; subst. unfold cached at 1, capacity at 1. simpl.
    split; [|reflexivity].
    apply lru_lookup_store. simpl in Hc. destruct Hc as [-> | ->];
      [exact Hl | reflexivity].
Qed.

(** A hit returns the stored result and logs nothing. *)
Lemma documentAtIndex_cached self i r :
  0 < capacity self ->
  lru_lookup i (cached self) = Some r ->
  exists self',
    documentAtIndex i self = (Ret r, self')
    /\ log self' = log self
    /\ header self' = header self
    /\ n_docs self' = n_docs self
    /\ max_nesting self' = max_nesting self
    /\ bson_options self' = bson_options self
    /\ lru_lookup i (cached self') = Some r
    /\ capacity self' = capacity self.
Proof.
  intros Hcap Hl. eexists. split.
  - apply documentAtIndex_hit; [lia | exact Hl].
  - unfold cached, capacity. simpl.
    repeat split. apply lru_lookup_touch.
Qed.

(** Nothing is new in a document whose keys are all in the header. *)
Lemma updateHeader_known py doc self :
  (forall k, k ∈ getKeys doc (max_nesting self) None -> k ∈ header self) ->
  updateHeader py doc self = (Ret (), self).
Proof.
  intros Hknown. unfold updateHeader. unfold_M.
  assert (set_difference_iter py (getKeys doc (max_nesting self) None)
                              (header self) = []) as ->; [|reflexivity].
  apply elem_of_nil_inv. intros k Hk.
  apply set_difference_iter_elem in Hk as [Hin Hout]. auto.
Qed.

(** [data] on a valid index, step by step. *)
Lemma data_valid py idx role self :
  isValid idx = true ->
  data py idx role self =
  match documentAtIndex (row idx) self with
  | (Ret (Some doc), s1) =>
      let s2 := (updateHeader py doc s1).2 in
      (cell_of py role (bson_options s2)
               (field_value (header s2) (column idx) doc), s2)
  | (Ret None, s1) => (Ret QVariant, s1)
  | (Raise e, s1) => (Raise e, s1)
  end.
Proof.
  intros Hv. unfold data. rewrite Hv. simpl. unfold_M.
  destruct (documentAtIndex (row idx) self) as [[[doc|]|e] s1];
    try reflexivity.
  destruct (updateHeader_spec py doc s1) as (evs & s2 & Hrun & _).
  rewrite Hrun. simpl. unfold cell_of.
  destruct (field_value (header s2) (column idx) doc) as [v|[]];
    reflexivity.
Qed.

Lemma same_but_header_cache s s' :
  same_but_header s s' -> cached s' = cached s /\ capacity s' = capacity s.
Proof.
  intros (_ & _ & _ & _ & Hsz & Hca). unfold cached, capacity, cache_of.
  rewrite Hca, Hsz. split; reflexivity.
Qed.









(** ** A store that cannot be reached *)

(** C6, as stated, fails: with a cache of one entry that holds row 0, a
    fetch of row 1 that fails with [PyMongoError] returns [None] and stores
    it, which evicts the entry of row 0. *)
Lemma store_unavailable_evicts :
  cursor one_slot_offline = Some offline_cursor
  /\ cursor_getitem offline_cursor 1 = Raise PyMongoError
  /\ cached one_slot_offline = [(0, Some d0)]
  /\ (documentAtIndex 1 one_slot_offline).1 = Ret None
  /\ cached (documentAtIndex 1 one_slot_offline).2 = [(1, None)]
  /\ lru_lookup 0 (cached (documentAtIndex 1 one_slot_offline).2) = None.
Proof. repeat split; vm_compute; reflexivity. Qed.

(** C6, amended. When the fetch of a row that is not cached fails with
    [PyMongoError], [documentAtIndex] returns [None] for that call; it does
    not ask the cursor for the count, sends no notification and does not
    clear the cache (the call logs the fetch and nothing else); [rowCount ()]
    and the header are unchanged. The cache changes only by the memoized
    [None] of the call, which becomes the most recently used entry: every
    other entry is kept while the cache has room, and the least recently
    used one is evicted when the cache is full. *)
Theorem store_unavailable_frame self c i :
  cursor self = Some c ->
  lru_lookup i (cached self) = None ->
  cursor_getitem c i = Raise PyMongoError ->
  exists self',
    documentAtIndex i self = (Ret None, self')
    /\ log self' = log self ++ [CursorGetItem i]
    /\ rowCount QModelIndex_invalid self' = rowCount QModelIndex_invalid self
    /\ header self' = header self
    /\ cursor self' = cursor self
    /\ cached self' =
       (if capacity self =? 0 then cached self
        else if Z.of_nat (length (cached self)) <? capacity self
             then (i, None) :: cached self
             else (i, None) :: removelast (cached self)).
Proof.
  intros Hc Hmiss Hget.
  rewrite (documentAtIndex_miss self i (or_intror Hmiss)).
  rewrite (documentAtIndex_func_unavailable
             (set_cache (Some (cache_of self)) self) c i Hc Hget).
  eexists. split; [reflexivity|].
  assert (Hca : cached (add_event (CursorGetItem i)
                          (set_cache (Some (cache_of self)) self))
                = cached self) by apply cached_set_cache_of.
  destruct (capacity self =? 0).
  - repeat split. exact Hca.
  - repeat split. unfold cached at 1. simpl. rewrite Hca.
    unfold lru_store. rewrite Hmiss. reflexivity.
Qed.

(** With room in the cache, the rows shown before stay cached. *)
Lemma store_unavailable_frame_witness :
  cursor three_rows_offline = Some offline_cursor
  /\ lru_lookup 2 (cached three_rows_offline) = None
  /\ cursor_getitem offline_cursor 2 = Raise PyMongoError
  /\ exists self',
      documentAtIndex 2 three_rows_offline = (Ret None, self')
      /\ log self' = log three_rows_offline ++ [CursorGetItem 2]
      /\ rowCount QModelIndex_invalid self' = 3
      /\ cached self' = [(2, None); (1, Some d1); (0, Some d0)].
Proof.
  repeat (split; [vm_compute; reflexivity|]).
  destruct (store_unavailable_frame three_rows_offline offline_cursor 2
              eq_refl eq_refl eq_refl)
    as (self' & Hrun & Hlog & Hrows & _ & _ & Hcached).
  exists self'. repeat split; assumption.
Defined.

(** ** The position of [_id] *)

(** In a strictly sorted list a member stands after exactly the entries
    that are smaller. *)
Lemma list_index_sorted k h :
  StronglySorted str_lt h -> k ∈ h ->
  list_index k h
  = Ret (Z.of_nat (length (filter (fun k' => str_lt k' k) h))).
Proof.
  induction 1 as [|x h Hs IH Hall]; intros Hin; [inversion Hin|].
  rewrite Forall_forall in Hall. simpl. rewrite filter_cons.
  destruct (String.eqb x k) eqn:E.
  - apply String.eqb_eq in E as ->.
    destruct (decide (str_lt k k)) as [Hkk|_].
    { apply str_lt_le_ne in Hkk. tauto. }
    assert (filter (fun k' => str_lt k' k) h = []) as ->; [|reflexivity].
    apply elem_of_nil_inv. intros y Hy.
    apply list_elem_of_filter in Hy as [Hlt Hy].
    apply Hall in Hy.
    assert (str_lt k k) as Hkk by (transitivity y; assumption).
    apply str_lt_le_ne in Hkk. tauto.
  - apply String.eqb_neq in E.
    apply elem_of_cons in Hin as [->|Hin]; [congruence|].
    rewrite (IH Hin). simpl.
    destruct (decide (str_lt x k)) as [_|Hn]; [|exfalso; apply Hn, Hall, Hin].
    simpl. f_equal. lia.
Qed.

(** C8, as stated, fails: a freshly constructed model has no column at all,
    and a discovered key that sorts before [_id] (an upper-case [Z]) takes
    position 0 and moves [_id] to position 1. *)
Lemma id_column_not_always_first :
  header (init 0 50 DEFAULT_JSON_OPTIONS) = []
  /\ headerData 0 Horizontal DisplayRole (init 0 50 DEFAULT_JSON_OPTIONS)
     = Ret QVariant
  /\ headerData 0 Horizontal DisplayRole
       (run sample_runtime show_both_rows nested_model) = Ret (PyStr "Z")
  /\ list_index "_id" (header (run sample_runtime show_both_rows nested_model))
     = Ret 1.
Proof. repeat split; vm_compute; reflexivity. Qed.

(** C8, amended. A freshly constructed model has an empty header. After
    [setQuery] the header is exactly [_id], the first column known; from
    then on, whatever calls follow, [_id] stays in the header, and its
    position is the number of header entries that sort before it: 0 exactly
    when no discovered key sorts before [_id]. *)
Theorem id_column_present py db collection query self0 self cs :
  setQuery db collection query self0 = (Ret (), self) ->
  let h := header (run py cs self) in
  (forall max_nesting cache_size bson_options,
      header (init max_nesting cache_size bson_options) = [])
  /\ header self = ["_id"]
  /\ "_id" ∈ h
  /\ list_index "_id" h
     = Ret (Z.of_nat (length (filter (fun k => str_lt k "_id") h)))
  /\ (list_index "_id" h = Ret 0 <->
      forall k, k ∈ discovered_by py cs self -> ~ str_lt k "_id").
Proof.
  intros Hq h.
  pose proof (setQuery_header _ _ _ _ _ Hq) as Hh.
  destruct (run_header py cs self) as (Hel & Hs).
  fold h in Hel, Hs. rewrite Hh in Hel, Hs.
  assert (Hsorted : StronglySorted str_lt h).
  { apply Hs. repeat constructor. }
  assert (Helem : forall k, k ∈ h <-> k = "_id" \/ k ∈ discovered_by py cs self).
  { intros k. rewrite Hel, list_elem_of_singleton. reflexivity. }
  assert (Hin : "_id" ∈ h) by (apply Helem; left; reflexivity).
  split; [reflexivity|]. split; [exact Hh|]. split; [exact Hin|].
  split; [apply list_index_sorted; assumption|].
  rewrite (list_index_sorted "_id" h Hsorted Hin). split.
  - intros H k Hk Hlt.
    assert (k ∈ filter (fun k' => str_lt k' "_id") h) as Hf.
    { apply list_elem_of_filter. split; [exact Hlt|]. apply Helem. right.
      exact Hk. }
    destruct (filter _ h); [inversion Hf|].
    simpl in H. injection H as H. lia.
  - intros Hnone.
    assert (filter (fun k' => str_lt k' "_id") h = []) as ->; [|reflexivity].
    apply elem_of_nil_inv. intros k Hk.
    apply list_elem_of_filter in Hk as [Hlt Hk].
    apply Helem in Hk as [->|Hk].
    + apply str_lt_le_ne in Hlt. tauto.
    + apply (Hnone k Hk Hlt).
Qed.

Lemma id_column_present_witness :
  (setQuery (list_db [nested_example; sparse_doc]) "c" []
            (init 1 50 DEFAULT_JSON_OPTIONS)).1 = Ret ()
  /\ "_id" ∈ header (run sample_runtime show_both_rows nested_model)
  /\ list_index "_id" (header (run sample_runtime show_both_rows nested_model))
     = Ret 1.
Proof.
  assert (H : (setQuery (list_db [nested_example; sparse_doc]) "c" []
                        (init 1 50 DEFAULT_JSON_OPTIONS)).1 = Ret ())
    by (vm_compute; reflexivity).
  split; [exact H|].
  destruct (id_column_present sample_runtime _ _ _ _ _ show_both_rows
              (returns_unit _ H)) as (_ & _ & Hin & Hpos & _).
  split; [exact Hin|].
  etransitivity; [exact Hpos|]. vm_compute. reflexivity.
Defined.

(** ** Cells whose path does not resolve *)

(** Subscripting anything but a [dict] by a [str] raises [TypeError]. *)
Lemma walk_non_dict key keys v :
  is_dict v = false -> walk (key :: keys) v = Raise TypeError.
Proof. destruct v; simpl; intros H; try reflexivity. discriminate. Qed.

(** A key that the document does not have raises [KeyError], which [data]
    turns into [QVariant()]. *)
Lemma cell_of_KeyError py role opts : cell_of py role opts (Raise KeyError) = Ret QVariant.
Proof. reflexivity. Qed.

(** C3 fails on the code. [data] catches [IndexError] and [KeyError] only:
    when a prefix of the dotted path resolves to a value that is not a
    [dict], [value[key]] raises [TypeError], and [data] lets it escape. Here
    the header holds [a.b] (found in the first document) and the second
    document has the number 5 under [a]. *)
Theorem data_raises_TypeError :
  (forall py idx role self doc s1,
      isValid idx = true ->
      documentAtIndex (row idx) self = (Ret (Some doc), s1) ->
      field_value (header (updateHeader py doc s1).2) (column idx) doc
      = Raise TypeError ->
      (data py idx role self).1 = Raise TypeError)
  /\ header (run sample_runtime show_both_rows nested_model)
     = ["Z"; "_id"; "a"; "a.b"; "a.c"]
  /\ (documentAtIndex 1 (run sample_runtime show_both_rows nested_model)).1
     = Ret (Some sparse_doc)
  /\ field_value ["Z"; "_id"; "a"; "a.b"; "a.c"] 3 sparse_doc = Raise TypeError
  /\ (forall role,
         (data sample_runtime (valid_index 1 3) role
               (run sample_runtime show_both_rows nested_model)).1
         = Raise TypeError).
Proof.
  split; [|split; [|split; [|split]]].
  - intros py idx role self doc s1 Hv Hd Hf.
    rewrite (data_valid py idx role self Hv), Hd. simpl. rewrite Hf.
    reflexivity.
  - vm_compute. reflexivity.
  - vm_compute. reflexivity.
  - vm_compute. reflexivity.
  - intros role. destruct role; vm_compute; reflexivity.
Qed.

(** ** [headerData] *)

Lemma list_getitem_nonneg {A} (l : list A) (i : Z) x :
  0 <= i -> l !! Z.to_nat i = Some x -> list_getitem l i = Ret x.
Proof.
  intros Hi Hl. unfold list_getitem.
  apply lookup_lt_Some in Hl as Hlt.
  replace (i <? 0) with false by (symmetry; apply Z.ltb_ge; lia).
  replace (0 <=? i) with true by (symmetry; apply Z.leb_le; lia).
  replace (i <? Z.of_nat (length l)) with true
    by (symmetry; apply Z.ltb_lt; lia).
  simpl. rewrite Hl. reflexivity.
Qed.

Lemma list_getitem_out_of_range {A} (l : list A) (i : Z) :
  Z.of_nat (length l) <= i \/ i < - Z.of_nat (length l) ->
  list_getitem l i = Raise IndexError.
Proof.
  intros Hi. unfold list_getitem.
  destruct (i <? 0) eqn:E.
  - apply Z.ltb_lt in E.
    replace (0 <=? i + Z.of_nat (length l)) with false
      by (symmetry; apply Z.leb_gt; lia).
    reflexivity.
  - apply Z.ltb_ge in E.
    replace (i <? Z.of_nat (length l)) with false
      by (symmetry; apply Z.ltb_ge; lia).
    rewrite andb_false_r. reflexivity.
Qed.

Lemma list_getitem_negative {A} (l : list A) (i : Z) x :
  i < 0 -> - Z.of_nat (length l) <= i ->
  l !! Z.to_nat (i + Z.of_nat (length l)) = Some x ->
  list_getitem l i = Ret x.
Proof.
  intros Hneg Hlo Hl. unfold list_getitem.
  replace (i <? 0) with true by (symmetry; apply Z.ltb_lt; lia).
  replace (0 <=? i + Z.of_nat (length l)) with true
    by (symmetry; apply Z.leb_le; lia).
  replace (i + Z.of_nat (length l) <? Z.of_nat (length l)) with true
    by (symmetry; apply Z.ltb_lt; lia).
  simpl. rewrite Hl. reflexivity.
Qed.

(** C9 fails on the code. [headerData] returns the header entry for a
    section in [0, columnCount ()) and [QVariant()] for a section at or
    above [columnCount ()] or below [- columnCount ()]; but a negative
    section from [- columnCount ()] on is a valid index of a Python list,
    counted from the end, so [self.header[section]] raises nothing and the
    entry [columnCount () + section] is returned: section -1 gives the last
    column name. *)
Theorem headerData_negative_section :
  (forall self section name,
      0 <= section -> header self !! Z.to_nat section = Some name ->
      headerData section Horizontal DisplayRole self = Ret (PyStr name))
  /\ (forall self section,
         columnCount self <= section \/ section < - columnCount self ->
         headerData section Horizontal DisplayRole self = Ret QVariant)
  /\ (forall self section name,
         - columnCount self <= section < 0 ->
         header self !! Z.to_nat (columnCount self + section) = Some name ->
         headerData section Horizontal DisplayRole self = Ret (PyStr name))
  /\ (forall self h name,
         headerData (-1) Horizontal DisplayRole (set_header (h ++ [name]) self)
         = Ret (PyStr name))
  /\ columnCount nested_model = 1
  /\ headerData (-1) Horizontal DisplayRole nested_model = Ret (PyStr "_id").
Proof.
  split; [|split; [|split; [|split; [|split]]]].
  - intros self section name Hpos Hl. unfold headerData.
    rewrite (list_getitem_nonneg _ _ name Hpos Hl). reflexivity.
  - intros self section Hout. unfold headerData.
    rewrite list_getitem_out_of_range by exact Hout. reflexivity.
  - intros self section name [Hlo Hneg] Hl. unfold headerData.
    unfold columnCount in *.
    rewrite (list_getitem_negative _ _ name); [reflexivity | lia | lia |].
    rewrite Z.add_comm. exact Hl.
  - intros self h name. unfold headerData. simpl.
    rewrite (list_getitem_negative _ _ name); [reflexivity | lia | | ].
    + rewrite length_app. simpl. lia.
    + rewrite length_app. simpl.
      replace (Z.to_nat (-1 + Z.of_nat (length h + 1))) with (length h) by lia.
      rewrite lookup_app_r by lia. rewrite Nat.sub_diag. reflexivity.
  - vm_compute. reflexivity.
  - vm_compute. reflexivity.
Qed.

(** ** [documentIdAtIndex] *)

Lemma in_c_int_iff n : in_c_int n = true <-> -2147483648 <= n <= 2147483647.
Proof.
  unfold in_c_int. rewrite andb_true_iff, Z.leb_le, Z.leb_le. reflexivity.
Qed.

(** A row outside the table, within the range of a C [int]. *)
Lemma index_out_of_range r c self :
  -2147483648 <= r <= 2147483647 -> -2147483648 <= c <= 2147483647 ->
  r < 0 \/ n_docs self <= r -> index r c self = Ret QModelIndex_invalid.
Proof.
  intros Hr Hc Hout. unfold index, rowCount. simpl.
  apply in_c_int_iff in Hr, Hc. rewrite Hr, Hc. simpl.
  destruct (0 <=? r) eqn:E1; [|reflexivity].
  destruct (r <? n_docs self) eqn:E2; [|reflexivity].
  apply Z.leb_le in E1. apply Z.ltb_lt in E2. lia.
Qed.

(** A row outside the range of a C [int]. *)
Lemma index_overflow r c self :
  ~ -2147483648 <= r <= 2147483647 -> index r c self = Raise OverflowError.
Proof.
  intros Hr. unfold index.
  destruct (in_c_int r) eqn:E; [|reflexivity].
  apply in_c_int_iff in E. contradiction.
Qed.

(** The column of a field of the header. *)
Lemma list_index_known field h :
  field ∈ h ->
  exists col, list_index field h = Ret col
              /\ 0 <= col < Z.of_nat (length h).
Proof.
  intros Hin. destruct (list_index_elem_of field h Hin) as (n & Hn & Hpos & Hl).
  exists n. split; [exact Hn|]. apply lookup_lt_Some in Hl. lia.
Qed.

(** C10 fails on the code. Before any query [_id] is not in the header,
    [value] returns [None] and [documentIdAtIndex] returns ["None"]. Once
    [_id] is in the header, a row without a document makes [data], and so
    [value], return [QVariant()], not [None]: [documentIdAtIndex] returns
    [str(QVariant())], the default rendering of the object, for a row out of
    range (that is a C [int], as [index] requires), a deleted row and a
    store that cannot be reached; and for a row that is no C [int] it raises
    the [OverflowError] of [index]. *)
Theorem documentIdAtIndex_unavailable :
  (forall py i max_nesting cache_size bson_options,
      (documentIdAtIndex py i (init max_nesting cache_size bson_options)).1
      = Ret (Str "None"))
  /\ (forall py i self,
         "_id" ∈ header self ->
         columnCount self <= 2147483648 ->
         -2147483648 <= i <= 2147483647 ->
         i < 0 \/ n_docs self <= i ->
         documentIdAtIndex py i self
         = (Ret (DefaultRepr "PyQt5.QtCore.QVariant"), self))
  /\ (forall py i self,
         "_id" ∈ header self ->
         ~ -2147483648 <= i <= 2147483647 ->
         documentIdAtIndex py i self = (Raise OverflowError, self))
  /\ (documentIdAtIndex sample_runtime 7 nested_model).1
     = Ret (DefaultRepr "PyQt5.QtCore.QVariant")
  /\ (documentIdAtIndex sample_runtime 2 three_rows_shrunk).1
     = Ret (DefaultRepr "PyQt5.QtCore.QVariant")
  /\ (documentIdAtIndex sample_runtime 2 three_rows_offline).1
     = Ret (DefaultRepr "PyQt5.QtCore.QVariant")
  /\ (documentIdAtIndex sample_runtime 0 three_rows).1 = Ret (Str "0")
  /\ (documentIdAtIndex sample_runtime 2147483648 nested_model).1
     = Raise OverflowError.
Proof.
  split; [|split; [|split; [|split; [|split; [|split; [|split]]]]]].
  - intros. reflexivity.
  - intros py i self Hin Hcols Hi Hout.
    unfold documentIdAtIndex, value. unfold_M.
    apply list_contains_elem_of in Hin as Hc. rewrite Hc.
    destruct (list_index_known "_id" (header self) Hin) as (n & Hn & Hlt).
    rewrite Hn. unfold columnCount in Hcols.
    rewrite (index_out_of_range i n self Hi); [reflexivity | lia | exact Hout].
  - intros py i self Hin Hi.
    unfold documentIdAtIndex, value. unfold_M.
    apply list_contains_elem_of in Hin as Hc. rewrite Hc.
    destruct (list_index_known "_id" (header self) Hin) as (n & Hn & _).
    rewrite Hn. rewrite (index_overflow i n self Hi). reflexivity.
  - vm_compute. reflexivity.
  - vm_compute. reflexivity.
  - vm_compute. reflexivity.
  - vm_compute. reflexivity.
  - vm_compute. reflexivity.
Qed.

(** * Further properties of the code *)

(** ** Dotted paths: [split] and [join] *)

Lemma split_dot_not_nil s : split_dot s <> [].
Proof.
  destruct s as [|c s]; simpl; [discriminate|].
  destruct (Ascii.eqb c "."); [discriminate|].
  destruct (split_dot s); discriminate.
Qed.

Lemma join_dot_cons piece pieces :
  pieces <> [] ->
  join_dot (piece :: pieces) = piece +:+ "." +:+ join_dot pieces.
Proof. destruct pieces; [congruence|]. reflexivity. Qed.

Lemma join_split_dot s : join_dot (split_dot s) = s.
Proof.
  induction s as [|c s IH]; [reflexivity|]. simpl.
  destruct (Ascii.eqb c ".") eqn:E.
  - apply Ascii.eqb_eq in E as ->.
    rewrite join_dot_cons by apply split_dot_not_nil. rewrite IH.
    reflexivity.
  - pose proof (split_dot_not_nil s) as Hne.
    destruct (split_dot s) as [|piece pieces]; [congruence|].
    unfold join_dot in *.
    destruct pieces as [|piece' pieces]; simpl in *; rewrite <- IH;
      reflexivity.
Qed.

Lemma split_dot_dotless s : Forall (fun piece => has_dot piece = false) (split_dot s).
Proof.
  induction s as [|c s IH]; simpl; [repeat constructor|].
  destruct (Ascii.eqb c ".") eqn:E; [constructor; [reflexivity | exact IH]|].
  destruct (split_dot s) as [|piece pieces]; [repeat constructor; simpl; rewrite E; reflexivity|].
  inversion IH; subst. constructor; [|assumption].
  simpl. rewrite E. assumption.
Qed.

Lemma split_dot_dotless_piece piece :
  has_dot piece = false -> split_dot piece = [piece].
Proof.
  induction piece as [|c s IH]; simpl; [reflexivity|].
  intros H. apply orb_false_iff in H as [Hc Hs]. rewrite Hc, (IH Hs).
  reflexivity.
Qed.

Lemma split_dot_app piece rest :
  has_dot piece = false ->
  split_dot (piece +:+ "." +:+ rest) = piece :: split_dot rest.
Proof.
  induction piece as [|c s IH]; simpl; [reflexivity|].
  intros H. apply orb_false_iff in H as [Hc Hs]. rewrite Hc.
  change (String.append s (String "." rest)) with (s +:+ "." +:+ rest).
  rewrite (IH Hs). reflexivity.
Qed.

Lemma split_join_dot pieces :
  pieces <> [] -> Forall (fun piece => has_dot piece = false) pieces ->
  split_dot (join_dot pieces) = pieces.
Proof.
  induction pieces as [|piece pieces IH]; [congruence|].
  intros _ Hall. inversion Hall as [|? ? Hp Hrest]; subst.
  destruct pieces as [|piece' pieces].
  - simpl. apply split_dot_dotless_piece, Hp.
  - rewrite join_dot_cons by discriminate.
    rewrite split_dot_app by exact Hp. rewrite IH; [reflexivity | discriminate | exact Hrest].
Qed.

(** [key.split(".")] and ["."].join] are inverse to each other: splitting
    never gives an empty list, its pieces hold no dot and joined by dots
    they give the key back; and a non-empty list of dot-free pieces is what
    splitting their join returns. *)
Theorem split_dot_round_trip :
  (forall s,
      split_dot s <> []
      /\ Forall (fun piece => has_dot piece = false) (split_dot s)
      /\ join_dot (split_dot s) = s)
  /\ (forall pieces,
         pieces <> [] ->
         Forall (fun piece => has_dot piece = false) pieces ->
         split_dot (join_dot pieces) = pieces).
Proof.
  split.
  - intros s. split; [apply split_dot_not_nil|].
    split; [apply split_dot_dotless | apply join_split_dot].
  - apply split_join_dot.
Qed.

(** ** A discovered column resolves in its document *)

Lemma dict_get_elem_of doc key v :
  NoDup doc.*1 -> (key, v) ∈ doc -> dict_get doc key = Some v.
Proof.
  induction doc as [|[k x] doc IH]; intros Hnd Hin; [inversion Hin|].
  simpl in *. apply NoDup_cons in Hnd as [Hk Hnd].
  apply elem_of_cons in Hin as [Heq|Hin].
  - inversion Heq; subst. rewrite String.eqb_refl. reflexivity.
  - destruct (String.eqb k key) eqn:E.
    + apply String.eqb_eq in E as ->. exfalso. apply Hk.
      apply list_elem_of_fmap. exists (key, v). split; [reflexivity | exact Hin].
    + apply IH; assumption.
Qed.

Lemma string_app_assoc (a b c : string) : (a +:+ b) +:+ c = a +:+ b +:+ c.
Proof.
  induction a as [|x a IH]; [reflexivity|].
  change (String x ((a +:+ b) +:+ c) = String x (a +:+ b +:+ c)).
  rewrite IH. reflexivity.
Qed.

Lemma nested_key_of_join root key rest :
  nested_key_of (Some (nested_key_of root key)) rest
  = nested_key_of root (key +:+ "." +:+ rest).
Proof.
  destruct root as [r|]; simpl; [|reflexivity].
  rewrite !string_app_assoc. reflexivity.
Qed.

(** Every identifier that [getKeys] returns is the dotted join of a path of
    keys that leads to a value in the document. *)
Lemma getKeys_path (n : nat) :
  forall depth doc root path,
    Z.to_nat depth = n ->
    plain_keys doc ->
    path ∈ getKeys doc depth root ->
    exists pieces v,
      pieces <> []
      /\ Forall (fun piece => has_dot piece = false) pieces
      /\ path = nested_key_of root (join_dot pieces)
      /\ walk pieces (VDict doc) = Ret v.
Proof.
  induction n as [|n IH]; intros depth doc root path Hn Hplain Hin;
    apply elem_of_getKeys in Hin as (key & v & Hkv & Hp);
    rewrite getKeys_item_eq in Hp;
    inversion Hplain as [? Hnd Hdot Hsub]; subst.
  - assert (Hd : (0 <? depth) = false) by (apply Z.ltb_ge; lia).
    rewrite Hd in Hp.
    assert (path = nested_key_of root key) as ->
      by (destruct v; apply list_elem_of_singleton in Hp; exact Hp).
    exists [key], v. split; [discriminate|].
    split; [repeat constructor; eapply Hdot, Hkv|].
    split; [reflexivity|].
    simpl. rewrite (dict_get_elem_of doc key v Hnd Hkv). reflexivity.
  - assert (Hd : (0 <? depth) = true) by (apply Z.ltb_lt; lia).
    assert (Hflat : path = nested_key_of root key ->
                    exists pieces v0,
                      pieces <> []
                      /\ Forall (fun piece => has_dot piece = false) pieces
                      /\ path = nested_key_of root (join_dot pieces)
                      /\ walk pieces (VDict doc) = Ret v0).
    { intros ->. exists [key], v. split; [discriminate|].
      split; [repeat constructor; eapply Hdot, Hkv|].
      split; [reflexivity|].
      simpl. rewrite (dict_get_elem_of doc key v Hnd Hkv). reflexivity. }
    destruct v; try (apply Hflat, list_elem_of_singleton, Hp).
    rewrite Hd in Hp.
    destruct (IH (depth - 1) items (Some (nested_key_of root key)) path)
      as (pieces & v & Hne & Hall & Hpath & Hwalk);
      [lia | eapply Hsub, Hkv | exact Hp |].
    exists (key :: pieces), v. split; [discriminate|].
    split; [constructor; [eapply Hdot, Hkv | exact Hall]|].
    split.
    + rewrite join_dot_cons by exact Hne. rewrite Hpath.
      apply nested_key_of_join.
    + simpl. rewrite (dict_get_elem_of doc key _ Hnd Hkv). simpl.
      exact Hwalk.
Qed.

(** A column found in a document has a value in that document: for a
    document whose keys are distinct and not dotted at every level, each
    identifier that [getKeys] returns, at any nesting depth, is resolved by
    the lookup of [data] ([split] on dots, then one subscript per piece)
    without [KeyError] or [TypeError], wherever the identifier stands in the
    header. *)
Theorem discovered_column_resolves doc depth key hdr col :
  plain_keys doc ->
  key ∈ getKeys doc depth None ->
  0 <= col -> hdr !! Z.to_nat col = Some key ->
  exists v, walk (split_dot key) (VDict doc) = Ret v
            /\ field_value hdr col doc = Ret v.
Proof.
  intros Hplain Hin Hcol Hhdr.
  destruct (getKeys_path (Z.to_nat depth) depth doc None key eq_refl Hplain Hin)
    as (pieces & v & Hne & Hall & Hpath & Hwalk).
  simpl in Hpath. subst key. rewrite (split_join_dot pieces Hne Hall).
  exists v. split; [exact Hwalk|].
  unfold field_value. rewrite (list_getitem_nonneg hdr col _ Hcol Hhdr).
  simpl. rewrite (split_join_dot pieces Hne Hall). exact Hwalk.
Qed.

Ltac elem_of_cases H :=
  repeat (apply elem_of_cons in H as [H|H];
          [inversion H; subst; clear H|]);
  try (apply elem_of_nil in H; destruct H).

Lemma plain_keys_nested_example : plain_keys nested_example.
Proof.
  apply plain_keys_intro.
  - apply (bool_decide_unpack _). vm_compute. exact I.
  - intros k v H. elem_of_cases H; reflexivity.
  - intros k sub H. elem_of_cases H.
    apply plain_keys_intro.
    + apply (bool_decide_unpack _). vm_compute. exact I.
    + intros k v H. elem_of_cases H; reflexivity.
    + intros k sub H. elem_of_cases H.
Qed.

(** The column [a.b] of the nested example. *)
Lemma discovered_column_resolves_witness :
  plain_keys nested_example
  /\ "a.b" ∈ getKeys nested_example 1 None
  /\ ["_id"; "a.b"; "a.c"] !! Z.to_nat 1 = Some "a.b"
  /\ exists v, walk (split_dot "a.b") (VDict nested_example) = Ret v
               /\ field_value ["_id"; "a.b"; "a.c"] 1 nested_example = Ret v.
Proof.
  assert (Hin : "a.b" ∈ getKeys nested_example 1 None).
  { apply (bool_decide_unpack _). vm_compute. exact I. }
  split; [apply plain_keys_nested_example|]. split; [exact Hin|].
  split; [reflexivity|].
  apply (discovered_column_resolves nested_example 1 "a.b"
           ["_id"; "a.b"; "a.c"] 1 plain_keys_nested_example Hin);
    [lia | reflexivity].
Defined.

(** ** [headerData] never raises *)

Lemma list_getitem_cases {A} (l : list A) (i : Z) :
  (exists x, list_getitem l i = Ret x) \/ list_getitem l i = Raise IndexError.
Proof.
  unfold list_getitem. destruct (_ && _); [|right; reflexivity].
  destruct (l !! _) as [x|]; [left; exists x; reflexivity | right; reflexivity].
Qed.

(** [headerData] returns for every section, orientation and role, in every
    state: an index error of the header is caught and no other exception
    can arise. A role other than [DisplayRole] gives [QVariant()] whatever
    the section, and the vertical header numbers rows from 1 without
    looking at [rowCount ()]. *)
Theorem headerData_returns :
  (forall section orientation role self,
      exists x, headerData section orientation role self = Ret x)
  /\ (forall section orientation role self,
         role <> DisplayRole ->
         headerData section orientation role self = Ret QVariant)
  /\ (forall section self,
         headerData section Vertical DisplayRole self
         = Ret (PyInt (section + 1))).
Proof.
  split; [|split].
  - intros section orientation role self. unfold headerData.
    destruct role; try (eexists; reflexivity).
    destruct orientation; try (eexists; reflexivity).
    destruct (list_getitem_cases (header self) section) as [[x ->]| ->];
      eexists; reflexivity.
  - intros section orientation role self Hr.
    destruct role; try reflexivity. congruence.
  - reflexivity.
Qed.

(** ** [setQuery] that fails *)

(** When the store refuses the query, [setQuery] raises what the store
    raised and stops in the middle of the reset: [beginResetModel] has been
    sent and [endResetModel] never is. If [find] fails nothing else has
    changed. If [count_documents] fails the cursor is already the new one,
    while the row count, the header and the cached documents are still
    those of the previous query. *)
Theorem setQuery_fails :
  (forall db collection query e self,
      find_sorted db collection query = Raise e ->
      exists self',
        setQuery db collection query self = (Raise e, self')
        /\ log self' = log self
             ++ [Signal beginResetModel (n_docs self) (header self); DbFind]
        /\ cursor self' = cursor self
        /\ n_docs self' = n_docs self
        /\ header self' = header self
        /\ cached self' = cached self)
  /\ (forall db collection query c e self,
         find_sorted db collection query = Ret c ->
         count_documents db collection query = Raise e ->
         exists self',
           setQuery db collection query self = (Raise e, self')
           /\ log self' = log self
                ++ [Signal beginResetModel (n_docs self) (header self);
                    DbFind; DbCountDocuments]
           /\ cursor self' = Some c
           /\ n_docs self' = n_docs self
           /\ header self' = header self
           /\ cached self' = cached self).
Proof.
  split.
  - intros db collection query e self Hf. unfold setQuery. unfold_M. simpl.
    rewrite Hf. simpl. eexists. split; [reflexivity|].
    simpl. rewrite <- app_assoc. repeat split.
  - intros db collection query c e self Hf Hc. unfold setQuery. unfold_M.
    simpl. rewrite Hf. simpl. rewrite Hc. simpl.
    eexists. split; [reflexivity|].
    simpl. rewrite <- !app_assoc. repeat split.
Qed.

(** ** [documentAtIndex] that raises *)

Lemma documentAtIndex_raise self i e s0 :
  capacity self = 0 \/ lru_lookup i (cached self) = None ->
  documentAtIndex_func i (set_cache (Some (cache_of self)) self)
  = (Raise e, s0) ->
  documentAtIndex i self = (Raise e, s0).
Proof.
  intros Hmiss Hf. rewrite (documentAtIndex_miss self i Hmiss), Hf.
  reflexivity.
Qed.

(** [documentAtIndex] handles [IndexError] and [PyMongoError] of the fetch
    and nothing else. Before any query the cursor is [None] and the call
    raises [TypeError]; any other exception of [cursor[index]] escapes; and
    when the fetch raises [IndexError] but the recount itself fails, the
    exception of [cursor.count()] escapes from the handler. In each case
    nothing is memoized for the row, the row count and the header are
    unchanged, no notification is sent, and the cache is not cleared. *)
Theorem documentAtIndex_raises :
  (forall self i,
      cursor self = None ->
      lru_lookup i (cached self) = None ->
      exists self',
        documentAtIndex i self = (Raise TypeError, self')
        /\ log self' = log self
        /\ n_docs self' = n_docs self
        /\ header self' = header self
        /\ cached self' = cached self)
  /\ (forall self c i e,
         cursor self = Some c ->
         lru_lookup i (cached self) = None ->
         cursor_getitem c i = Raise e ->
         e <> IndexError -> e <> PyMongoError ->
         exists self',
           documentAtIndex i self = (Raise e, self')
           /\ log self' = log self ++ [CursorGetItem i]
           /\ n_docs self' = n_docs self
           /\ header self' = header self
           /\ cached self' = cached self)
  /\ (forall self c i e,
         cursor self = Some c ->
         lru_lookup i (cached self) = None ->
         cursor_getitem c i = Raise IndexError ->
         cursor_count c = Raise e ->
         exists self',
           documentAtIndex i self = (Raise e, self')
           /\ log self' = log self ++ [CursorGetItem i; CursorCount]
           /\ n_docs self' = n_docs self
           /\ header self' = header self
           /\ cached self' = cached self).
Proof.
  split; [|split].
  - intros self i Hc Hmiss. eexists. split.
    + apply documentAtIndex_raise; [right; exact Hmiss|].
      unfold documentAtIndex_func. unfold_M. simpl. rewrite Hc. reflexivity.
    + repeat split. apply cached_set_cache_of.
  - intros self c i e Hc Hmiss Hget He1 He2. eexists. split.
    + apply documentAtIndex_raise; [right; exact Hmiss|].
      unfold documentAtIndex_func. unfold_M. simpl. rewrite Hc. simpl.
      rewrite Hget. destruct e; try reflexivity; congruence.
    + repeat split. apply cached_set_cache_of.
  - intros self c i e Hc Hmiss Hget Hcount. eexists. split.
    + apply documentAtIndex_raise; [right; exact Hmiss|].
      unfold documentAtIndex_func. unfold_M. simpl. rewrite Hc. simpl.
      rewrite Hget. simpl. rewrite Hcount. reflexivity.
    + simpl. rewrite <- app_assoc. repeat split. apply cached_set_cache_of.
Qed.

(** ** The row count never grows between two queries *)

Lemma documentAtIndex_func_n_docs i self :
  n_docs (documentAtIndex_func i self).2 <= n_docs self.
Proof.
  unfold documentAtIndex_func. unfold_M.
  destruct (cursor self) as [c|]; [|reflexivity]. simpl.
  destruct (cursor_getitem c i) as [doc|[]]; simpl; try reflexivity.
  destruct (cursor_count c) as [n|e]; simpl; [|reflexivity].
  unfold cache_clear.
  destruct (n - n_docs self <? 0) eqn:E; simpl;
    destruct (documentAtIndex_cache self); simpl; try reflexivity;
    apply Z.ltb_lt in E; lia.
Qed.

Lemma lru_cache_wrapper_n_docs i self :
  n_docs (lru_cache_wrapper i self).2 <= n_docs self.
Proof.
  unfold lru_cache_wrapper.
  destruct (documentAtIndex_cache self) as [k|]; [|reflexivity].
  destruct (maxsize k =? 0); [apply documentAtIndex_func_n_docs|].
  destruct (lru_lookup i (entries k)); [reflexivity|].
  pose proof (documentAtIndex_func_n_docs i self) as H.
  destruct (documentAtIndex_func i self) as [[r|e] s1]; exact H.
Qed.

Lemma documentAtIndex_n_docs i self :
  n_docs (documentAtIndex i self).2 <= n_docs self.
Proof.
  unfold documentAtIndex.
  destruct (documentAtIndex_cache self) as [k|];
    [apply lru_cache_wrapper_n_docs|].
  match goal with |- context [lru_cache_wrapper i ?s] =>
    apply (lru_cache_wrapper_n_docs i s) end.
Qed.

Lemma updateHeader_n_docs py doc self :
  n_docs (updateHeader py doc self).2 = n_docs self.
Proof.
  destruct (updateHeader_spec py doc self)
    as (evs & s & Hrun & _ & _ & _ & _ & _ & Hfr).
  rewrite Hrun. apply Hfr.
Qed.

Lemma data_n_docs py idx role self :
  n_docs (data py idx role self).2 <= n_docs self.
Proof.
  rewrite data_state. destruct (isValid idx); [|reflexivity].
  pose proof (documentAtIndex_n_docs (row idx) self) as H.
  destruct (documentAtIndex (row idx) self) as [[[doc|]|e] s1]; simpl in H;
    try exact H.
  rewrite updateHeader_n_docs. exact H.
Qed.

Lemma value_n_docs py r field role self :
  n_docs (value py r field role self).2 <= n_docs self.
Proof.
  rewrite value_state. destruct (list_contains field (header self));
    [|reflexivity].
  destruct (list_index field (header self)); [|reflexivity].
  destruct (index _ _ self); [apply data_n_docs|reflexivity].
Qed.

Lemma perform_n_docs py c self : n_docs (perform py c self) <= n_docs self.
Proof.
  destruct c as [idx role|r field role|i|i|doc|c]; simpl.
  - apply data_n_docs.
  - apply value_n_docs.
  - rewrite documentIdAtIndex_state. apply value_n_docs.
  - apply documentAtIndex_n_docs.
  - rewrite updateHeader_n_docs. reflexivity.
  - unfold store_changes. destruct (cursor self); reflexivity.
Qed.

(** Between two calls of [setQuery] the number of rows only goes down:
    whatever cells, values and documents are asked for and however the store
    changes, [rowCount ()] afterwards is at most what it was. Documents
    added to the store after the query are never shown: a recount that is
    larger than the row count is ignored. *)
Theorem rowCount_never_grows py cs self :
  rowCount QModelIndex_invalid (run py cs self)
  <= rowCount QModelIndex_invalid self.
Proof.
  unfold rowCount. simpl. revert self.
  induction cs as [|c cs IH]; intros self; simpl; [reflexivity|].
  etransitivity; [apply IH | apply perform_n_docs].
Qed.

(** ** A failure of the store is remembered *)

Lemma documentAtIndex_unavailable self c i :
  cursor self = Some c ->
  lru_lookup i (cached self) = None ->
  cursor_getitem c i = Raise PyMongoError ->
  exists self',
    documentAtIndex i self = (Ret None, self')
    /\ log self' = log self ++ [CursorGetItem i].
Proof.
  intros Hc Hmiss Hget.
  rewrite (documentAtIndex_miss self i (or_intror Hmiss)).
  rewrite (documentAtIndex_func_unavailable
             (set_cache (Some (cache_of self)) self) c i Hc Hget).
  eexists. split; [reflexivity|].
  destruct (capacity self =? 0); reflexivity.
Qed.

(** A fetch that failed with [PyMongoError] is memoized like a document:
    with a cache of positive capacity, the next call for the same row
    returns [None] from the cache and does not ask the cursor, even when the
    store has come back and the cursor would now return the document. *)
Theorem store_error_is_remembered self c i c' :
  0 < capacity self ->
  cursor self = Some c ->
  lru_lookup i (cached self) = None ->
  cursor_getitem c i = Raise PyMongoError ->
  exists self',
    documentAtIndex i (store_changes c' (documentAtIndex i self).2)
    = (Ret None, self')
    /\ log self' = log (documentAtIndex i self).2
    /\ log (documentAtIndex i self).2 = log self ++ [CursorGetItem i].
Proof.
  intros Hcap Hc Hmiss Hget.
  destruct (documentAtIndex_unavailable self c i Hc Hmiss Hget)
    as (s1 & Hrun & Hlog).
  destruct (documentAtIndex_memoizes self i None s1 Hcap Hrun) as [Hl Hcp].
  rewrite Hrun. simpl.
  assert (Hl' : lru_lookup i (cached (store_changes c' s1)) = Some None).
  { unfold store_changes. destruct (cursor s1); exact Hl. }
  assert (Hcap' : 0 < capacity (store_changes c' s1)).
  { replace (capacity (store_changes c' s1)) with (capacity s1)
      by (unfold store_changes; destruct (cursor s1); reflexivity).
    lia. }
  destruct (documentAtIndex_cached _ i None Hcap' Hl')
    as (s2 & Hrun2 & Hlog2 & _).
  exists s2. split; [exact Hrun2|]. split; [|exact Hlog].
  rewrite Hlog2. unfold store_changes. destruct (cursor s1); reflexivity.
Qed.

(** The store comes back before row 2 is asked for again. *)
Lemma store_error_is_remembered_witness :
  0 < capacity three_rows_offline
  /\ cursor three_rows_offline = Some offline_cursor
  /\ lru_lookup 2 (cached three_rows_offline) = None
  /\ cursor_getitem offline_cursor 2 = Raise PyMongoError
  /\ cursor_getitem (list_cursor [d0; d1; d2]) 2 = Ret d2
  /\ exists self',
      documentAtIndex 2 three_rows_back_online = (Ret None, self')
      /\ log self' = log (documentAtIndex 2 three_rows_offline).2.
Proof.
  assert (Hcap : 0 < capacity three_rows_offline) by (vm_compute; reflexivity).
  split; [exact Hcap|].
  repeat (split; [vm_compute; reflexivity|]).
  destruct (store_error_is_remembered three_rows_offline offline_cursor 2
              (list_cursor [d0; d1; d2]) Hcap eq_refl eq_refl eq_refl)
    as (self' & Hrun & Hlog & _).
  exists self'. split; [exact Hrun | exact Hlog].
Defined.

(** ** Cells outside the table *)

Lemma index_Ret_valid_iff r c self idx :
  index r c self = Ret idx ->
  (isValid idx = true
   <-> (0 <= r < n_docs self /\ 0 <= c < columnCount self)).
Proof.
  unfold index, rowCount. simpl.
  destruct (in_c_int r && in_c_int c); [|discriminate].
  intros H. injection H as <-.
  destruct (0 <=? r) eqn:E1; destruct (r <? n_docs self) eqn:E2;
    destruct (0 <=? c) eqn:E3; destruct (c <? columnCount self) eqn:E4;
    simpl; split; intros H; try discriminate; try reflexivity;
    try (apply Z.leb_le in E1); try (apply Z.leb_gt in E1);
    try (apply Z.ltb_lt in E2); try (apply Z.ltb_ge in E2);
    try (apply Z.leb_le in E3); try (apply Z.leb_gt in E3);
    try (apply Z.ltb_lt in E4); try (apply Z.ltb_ge in E4); lia.
Qed.

(** [index] raises nothing but [OverflowError]. *)
Lemma index_cases r c self :
  (exists idx, index r c self = Ret idx)
  \/ index r c self = Raise OverflowError.
Proof.
  unfold index. destruct (in_c_int r && in_c_int c);
    [left; eexists; reflexivity | right; reflexivity].
Qed.

Lemma data_invalid py idx role self :
  isValid idx = false -> data py idx role self = (Ret QVariant, self).
Proof. intros H. unfold data. rewrite H. reflexivity. Qed.

(** For an index that [index(row, column)] returned for a row or a column
    outside the table, as the table is when the index is made, [data]
    returns [QVariant()] and does nothing: no document is fetched and the
    header does not change. So does [value] for a known field and a row
    outside the table, as long as the row is a C [int]; for a row that is
    not, [value] raises the [OverflowError] of [index], again without
    touching the model. *)
Theorem cell_outside_table py :
  (forall r c role self idx,
      index r c self = Ret idx ->
      ~ (0 <= r < rowCount QModelIndex_invalid self
         /\ 0 <= c < columnCount self) ->
      data py idx role self = (Ret QVariant, self))
  /\ (forall r field role self,
         field ∈ header self ->
         columnCount self <= 2147483648 ->
         -2147483648 <= r <= 2147483647 ->
         ~ 0 <= r < rowCount QModelIndex_invalid self ->
         value py r field role self = (Ret QVariant, self))
  /\ (forall r field role self,
         field ∈ header self ->
         ~ -2147483648 <= r <= 2147483647 ->
         value py r field role self = (Raise OverflowError, self)).
Proof.
  split; [|split].
  - intros r c role self idx Hidx Hout. apply data_invalid.
    destruct (isValid idx) eqn:E; [|reflexivity].
    apply (index_Ret_valid_iff r c self idx Hidx) in E. contradiction.
  - intros r field role self Hin Hcols Hr Hout.
    unfold value. unfold_M.
    apply list_contains_elem_of in Hin as Hc. rewrite Hc.
    destruct (list_index_known field (header self) Hin) as (n & Hn & Hlt).
    rewrite Hn. unfold columnCount in Hcols.
    unfold rowCount in Hout. simpl in Hout.
    rewrite (index_out_of_range r n self Hr); [| lia | lia].
    reflexivity.
  - intros r field role self Hin Hr.
    unfold value. unfold_M.
    apply list_contains_elem_of in Hin as Hc. rewrite Hc.
    destruct (list_index_known field (header self) Hin) as (n & Hn & _).
    rewrite Hn, (index_overflow r n self Hr). reflexivity.
Qed.

(** ** An empty model *)

(** While [empty ()] holds, no access by row reaches the store: [data] on
    any index that [index] returns, [value] and [documentIdAtIndex] leave
    the model as it is, fetch nothing, and give [QVariant()] or [None] (for
    [documentIdAtIndex] their renderings), or raise the [OverflowError] of
    [index] for a row that is no C [int]; never a value of a document. *)
Theorem empty_model_serves_nothing py self :
  empty self = true ->
  (forall r c role idx,
      index r c self = Ret idx ->
      data py idx role self = (Ret QVariant, self))
  /\ (forall r field role,
         value py r field role self = (Ret QVariant, self)
         \/ value py r field role self = (Ret PyNone, self)
         \/ value py r field role self = (Raise OverflowError, self))
  /\ (forall i,
         documentIdAtIndex py i self
         = (Ret (DefaultRepr "PyQt5.QtCore.QVariant"), self)
         \/ documentIdAtIndex py i self = (Ret (Str "None"), self)
         \/ documentIdAtIndex py i self = (Raise OverflowError, self)).
Proof.
  intros He. unfold empty, rowCount in He. simpl in He.
  apply Z.eqb_eq in He.
  assert (Hdata : forall r c role idx,
             index r c self = Ret idx ->
             data py idx role self = (Ret QVariant, self)).
  { intros r c role idx Hidx. apply data_invalid.
    destruct (isValid idx) eqn:E; [|reflexivity].
    apply (index_Ret_valid_iff r c self idx Hidx) in E. lia. }
  assert (Hvalue : forall r field role,
             value py r field role self = (Ret QVariant, self)
             \/ value py r field role self = (Ret PyNone, self)
             \/ value py r field role self = (Raise OverflowError, self)).
  { intros r field role. unfold value. unfold_M.
    destruct (list_contains field (header self)) eqn:Hc;
      [|right; left; reflexivity].
    apply list_contains_elem_of in Hc.
    destruct (list_index_known field (header self) Hc) as (n & Hn & _).
    rewrite Hn.
    destruct (index_cases r n self) as [[idx Hidx]|Hidx]; rewrite Hidx.
    - left. apply (Hdata r n role idx Hidx).
    - right. right. reflexivity. }
  split; [exact Hdata|]. split; [exact Hvalue|].
  intros i. unfold documentIdAtIndex. unfold_M.
  destruct (Hvalue i "_id" UserRole) as [-> | [-> | ->]];
    [left | right; left | right; right]; reflexivity.
Qed.

(** A query that matched no document: the header holds [_id], the cursor is
    bound, and still no row is served. *)
Lemma empty_model_serves_nothing_witness :
  empty empty_query_model = true
  /\ header empty_query_model = ["_id"]
  /\ (value sample_runtime 0 "_id" UserRole empty_query_model).1
     = Ret QVariant
  /\ (value sample_runtime 2147483648 "_id" UserRole empty_query_model).1
     = Raise OverflowError
  /\ (forall r field role,
         value sample_runtime r field role empty_query_model
         = (Ret QVariant, empty_query_model)
         \/ value sample_runtime r field role empty_query_model
            = (Ret PyNone, empty_query_model)
         \/ value sample_runtime r field role empty_query_model
            = (Raise OverflowError, empty_query_model)).
Proof.
  assert (He : empty empty_query_model = true) by (vm_compute; reflexivity).
  split; [exact He|].
  repeat (split; [vm_compute; reflexivity|]).
  apply (empty_model_serves_nothing sample_runtime empty_query_model He).
Defined.

(** ** The header does not depend on the order of discovery *)

Lemma updateHeader_state py doc self :
  let self' := (updateHeader py doc self).2 in
  (forall k, k ∈ header self' <->
             k ∈ header self \/ k ∈ getKeys doc (max_nesting self) None)
  /\ (StronglySorted str_lt (header self) ->
      StronglySorted str_lt (header self'))
  /\ max_nesting self' = max_nesting self.
Proof.
  destruct (updateHeader_spec py doc self)
    as (evs & s & Hrun & _ & _ & _ & Hel & Hs & Hfr).
  simpl. rewrite Hrun. simpl. split; [exact Hel|]. split; [exact Hs|].
  apply Hfr.
Qed.

(** Updating a sorted header with two documents gives the same header in
    either order, and with any iteration order of the sets of new keys; and
    updating with the same document again changes nothing and sends no
    notification. *)
Theorem updateHeader_order_independent py py' doc1 doc2 self :
  StronglySorted str_lt (header self) ->
  header (updateHeader py doc2 (updateHeader py doc1 self).2).2
  = header (updateHeader py' doc1 (updateHeader py' doc2 self).2).2
  /\ updateHeader py doc1 (updateHeader py doc1 self).2
     = (Ret (), (updateHeader py doc1 self).2).
Proof.
  intros Hs.
  destruct (updateHeader_state py doc1 self) as (He1 & Hs1 & Hm1).
  destruct (updateHeader_state py doc2 (updateHeader py doc1 self).2)
    as (He12 & Hs12 & _).
  destruct (updateHeader_state py' doc2 self) as (He2 & Hs2 & Hm2).
  destruct (updateHeader_state py' doc1 (updateHeader py' doc2 self).2)
    as (He21 & Hs21 & _).
  split.
  - apply strictly_sorted_unique; [auto | auto |].
    intros k. rewrite He12, He1, He21, He2, Hm1, Hm2. tauto.
  - apply updateHeader_known. intros k Hk. apply He1. right.
    rewrite <- Hm1. exact Hk.
Qed.

(** The two documents of the examples, on the header of a fresh query. *)
Lemma updateHeader_order_independent_witness :
  StronglySorted str_lt (header nested_model)
  /\ header (updateHeader sample_runtime sparse_doc
               (updateHeader sample_runtime nested_example nested_model).2).2
     = header (updateHeader sample_runtime nested_example
                 (updateHeader sample_runtime sparse_doc nested_model).2).2.
Proof.
  assert (H : StronglySorted str_lt (header nested_model)).
  { apply (bool_decide_unpack _). vm_compute. exact I. }
  split; [exact H|].
  apply (updateHeader_order_independent sample_runtime sample_runtime
           nested_example sparse_doc nested_model H).
Defined.

(** ** What every session keeps *)

Lemma lru_lookup_None_iff i es : lru_lookup i es = None <-> i ∉ es.*1.
Proof.
  induction es as [|[k r] es IH]; simpl.
  - split; [intros _ H; inversion H | reflexivity].
  - rewrite not_elem_of_cons. destruct (k =? i) eqn:E.
    + apply Z.eqb_eq in E. split; [discriminate | intros [H _]; congruence].
    + apply Z.eqb_neq in E. rewrite IH. split; [split; auto | tauto].
Qed.

Lemma lru_remove_keys j es : (lru_remove j es).*1 = filter (fun k => k ≠ j) es.*1.
Proof.
  unfold lru_remove. induction es as [|[k r] es IH]; [reflexivity|].
  rewrite fmap_cons, !filter_cons. cbn [fst].
  destruct (decide (k ≠ j)); [rewrite fmap_cons|]; rewrite IH; reflexivity.
Qed.

Lemma lru_touch_sound i r es :
  lru_lookup i es <> None -> NoDup es.*1 ->
  (length (lru_touch i r es) <= length es)%nat
  /\ NoDup (lru_touch i r es).*1.
Proof.
  intros Hl Hnd. unfold lru_touch. split.
  - simpl. assert (i ∈ es.*1) as Hin.
    { destruct (decide (i ∈ es.*1)) as [H|H]; [exact H|].
      apply lru_lookup_None_iff in H. contradiction. }
    clear -Hin. unfold lru_remove.
    induction es as [|[k x] es IH]; [inversion Hin|].
    rewrite filter_cons. simpl in *.
    destruct (decide (k ≠ i)) as [Hk|Hk]; simpl.
    + apply elem_of_cons in Hin as [->|Hin]; [congruence|].
      specialize (IH Hin). lia.
    + pose proof (length_filter (fun e : Z * option document => e.1 ≠ i) es).
      lia.
  - rewrite fmap_cons. simpl. apply NoDup_cons. split.
    + rewrite lru_remove_keys, list_elem_of_filter. tauto.
    + rewrite lru_remove_keys. apply NoDup_filter, Hnd.
Qed.

Lemma removelast_keys (es : list (Z * option document)) :
  (removelast es).*1 `sublist_of` es.*1.
Proof.
  induction es as [|e es IH]; [constructor|].
  destruct es as [|e' es]; [simpl; apply sublist_nil_l|].
  change (removelast (e :: e' :: es)) with (e :: removelast (e' :: es)).
  rewrite !fmap_cons. apply sublist_skip. rewrite <- fmap_cons. exact IH.
Qed.

Lemma removelast_length (es : list (Z * option document)) :
  es <> [] -> length (removelast es) = (length es - 1)%nat.
Proof.
  intros Hne. rewrite List.removelast_firstn_len, List.length_firstn.
  destruct es; [congruence|]. simpl. lia.
Qed.

Lemma lru_store_sound size i r es :
  0 < size -> lru_lookup i es = None ->
  Z.of_nat (length es) <= size -> NoDup es.*1 ->
  Z.of_nat (length (lru_store size i r es)) <= size
  /\ NoDup (lru_store size i r es).*1.
Proof.
  intros Hsize Hl Hlen Hnd. unfold lru_store. rewrite Hl.
  apply lru_lookup_None_iff in Hl.
  destruct (Z.of_nat (length es) <? size) eqn:E.
  - apply Z.ltb_lt in E. split; [simpl; lia|].
    rewrite fmap_cons. apply NoDup_cons. split; assumption.
  - apply Z.ltb_ge in E. split.
    + simpl. destruct es as [|e es]; [simpl; lia|].
      rewrite removelast_length by discriminate. simpl in *. lia.
    + rewrite fmap_cons. apply NoDup_cons. split.
      * intros H. apply Hl. eapply sublist_subseteq; [apply removelast_keys|].
        exact H.
      * apply (sublist_NoDup _ es.*1); [exact Hnd | apply removelast_keys].
Qed.

Lemma same_config_refl self : same_config self self.
Proof. repeat split. Qed.

Lemma same_config_trans s1 s2 s3 :
  same_config s1 s2 -> same_config s2 s3 -> same_config s1 s3.
Proof. unfold same_config. intuition congruence. Qed.

(** The body keeps the configuration, and the entries or none of them. *)
Lemma documentAtIndex_func_config i self :
  same_config self (documentAtIndex_func i self).2
  /\ (cached (documentAtIndex_func i self).2 = cached self
      \/ cached (documentAtIndex_func i self).2 = []).
Proof.
  split; [|apply documentAtIndex_func_cached].
  unfold documentAtIndex_func. unfold_M.
  destruct (cursor self) as [c|]; [|repeat split]. simpl.
  destruct (cursor_getitem c i) as [doc|[]]; simpl; try solve [repeat split].
  destruct (cursor_count c) as [n|e]; simpl; [|repeat split].
  unfold cache_clear, same_config, capacity, cache_of.
  destruct (n - n_docs self <? 0); simpl;
    destruct (documentAtIndex_cache self) eqn:E; simpl; rewrite ?E;
    repeat split.
Qed.

Lemma cache_sound_nil self :
  cached self = [] -> 0 <= capacity self -> cache_sound self.
Proof.
  intros H Hc. unfold cache_sound. rewrite H. simpl. split; [lia|constructor].
Qed.

Lemma set_cache_of_config self :
  same_config self (set_cache (Some (cache_of self)) self).
Proof. repeat split. Qed.

(** [documentAtIndex] keeps the configuration and a sound cache. *)
Lemma documentAtIndex_sound i self :
  0 <= capacity self -> cache_sound self ->
  same_config self (documentAtIndex i self).2
  /\ cache_sound (documentAtIndex i self).2.
Proof.
  intros Hcap [Hlen Hnd].
  destruct (decide (capacity self = 0)) as [Hz|Hnz];
    [|destruct (lru_lookup i (cached self)) as [r|] eqn:Hl].
  - (* no caching *)
    rewrite (documentAtIndex_miss self i (or_introl Hz)).
    pose proof (documentAtIndex_func_config i
                  (set_cache (Some (cache_of self)) self)) as [Hcfg Hca].
    rewrite cached_set_cache_of in Hca.
    assert (Hcfg' : same_config self
              (documentAtIndex_func i (set_cache (Some (cache_of self)) self)).2)
      by (eapply same_config_trans; [apply set_cache_of_config | exact Hcfg]).
    replace (capacity self =? 0) with true by (symmetry; apply Z.eqb_eq; exact Hz).
    destruct (documentAtIndex_func i _) as [[r|e] s1]; cbn [fst snd] in *;
      (split; [exact Hcfg'|]);
      destruct Hcfg' as (_ & _ & _ & Hc);
      unfold cache_sound; rewrite Hc;
      (destruct Hca as [-> | ->]; [split; assumption | simpl; split; [exact Hcap|constructor]]).
  - (* a hit *)
    rewrite (documentAtIndex_hit self i r Hnz Hl).
    split; [repeat split|].
    destruct (lru_touch_sound i r (cached self)) as [Hlen' Hnd'];
      [congruence | exact Hnd |].
    match goal with |- cache_sound ?s =>
      change (Z.of_nat (length (lru_touch i r (cached self))) <= capacity self
              /\ NoDup (lru_touch i r (cached self)).*1) end.
    split; [lia | exact Hnd'].
  - (* a miss *)
    rewrite (documentAtIndex_miss self i (or_intror Hl)).
    pose proof (documentAtIndex_func_config i
                  (set_cache (Some (cache_of self)) self)) as [Hcfg Hca].
    rewrite cached_set_cache_of in Hca.
    assert (Hcfg' : same_config self
              (documentAtIndex_func i (set_cache (Some (cache_of self)) self)).2)
      by (eapply same_config_trans; [apply set_cache_of_config | exact Hcfg]).
    replace (capacity self =? 0) with false
      by (symmetry; apply Z.eqb_neq; exact Hnz).
    destruct (documentAtIndex_func i _) as [[r|e] s1]; cbn [fst snd] in *.
    + destruct Hcfg' as (Hm & Hb & Hs & Hc).
      split; [repeat split; assumption|].
      match goal with |- cache_sound ?s =>
        change (Z.of_nat (length (lru_store (capacity self) i r (cached s1)))
                <= capacity self
                /\ NoDup (lru_store (capacity self) i r (cached s1)).*1) end.
      apply lru_store_sound; [lia | | |];
        destruct Hca as [-> | ->]; simpl; try assumption; try reflexivity;
        try lia; constructor.
    + split; [exact Hcfg'|].
      destruct Hcfg' as (_ & _ & _ & Hc).
      unfold cache_sound. rewrite Hc.
      destruct Hca as [-> | ->]; [split; assumption | simpl; split; [exact Hcap|constructor]].
Qed.

Lemma same_but_header_config s s' : same_but_header s s' -> same_config s s'.
Proof.
  intros Hfr. destruct (same_but_header_cache _ _ Hfr) as [_ Hc].
  destruct Hfr as (Hm & Hb & _ & _ & Hs & _). repeat split; assumption.
Qed.

Lemma well_kept_config s s' :
  same_config s s' -> cached s' = cached s ->
  header s' = header s -> well_kept s -> well_kept s'.
Proof.
  intros (_ & _ & _ & Hc) Hca Hh (Hcap & [Hlen Hnd] & Hs).
  unfold well_kept, cache_sound. rewrite Hc, Hca, Hh. auto.
Qed.

Lemma updateHeader_well_kept py doc self :
  well_kept self ->
  same_config self (updateHeader py doc self).2
  /\ well_kept (updateHeader py doc self).2.
Proof.
  intros (Hcap & [Hlen Hnd] & Hs).
  destruct (updateHeader_spec py doc self)
    as (evs & s & Hrun & _ & _ & _ & _ & Hsorted & Hfr).
  rewrite Hrun. simpl.
  pose proof (same_but_header_config _ _ Hfr) as Hcfg.
  destruct (same_but_header_cache _ _ Hfr) as [Hca Hc].
  split; [exact Hcfg|].
  unfold well_kept, cache_sound. rewrite Hc, Hca. auto.
Qed.

Lemma documentAtIndex_well_kept i self :
  well_kept self ->
  same_config self (documentAtIndex i self).2
  /\ well_kept (documentAtIndex i self).2.
Proof.
  intros (Hcap & Hsound & Hs).
  destruct (documentAtIndex_sound i self Hcap Hsound) as [Hcfg Hsound'].
  destruct (documentAtIndex_header i self) as [Hh _].
  split; [exact Hcfg|].
  destruct Hcfg as (_ & _ & _ & Hc).
  unfold well_kept. rewrite Hc, Hh. auto.
Qed.

Lemma data_well_kept py idx role self :
  well_kept self ->
  same_config self (data py idx role self).2
  /\ well_kept (data py idx role self).2.
Proof.
  intros Hk. rewrite data_state.
  destruct (isValid idx); [|split; [apply same_config_refl | exact Hk]].
  destruct (documentAtIndex_well_kept (row idx) self Hk) as [Hcfg Hk1].
  destruct (documentAtIndex (row idx) self) as [[[doc|]|e] s1];
    cbn [fst snd] in *; try (split; assumption).
  destruct (updateHeader_well_kept py doc s1 Hk1) as [Hcfg2 Hk2].
  split; [eapply same_config_trans; eassumption | exact Hk2].
Qed.

Lemma value_well_kept py r field role self :
  well_kept self ->
  same_config self (value py r field role self).2
  /\ well_kept (value py r field role self).2.
Proof.
  intros Hk. rewrite value_state.
  destruct (list_contains field (header self));
    [|split; [apply same_config_refl | exact Hk]].
  destruct (list_index field (header self));
    [|split; [apply same_config_refl | exact Hk]].
  destruct (index _ _ self);
    [apply data_well_kept, Hk | split; [apply same_config_refl | exact Hk]].
Qed.

Lemma perform_well_kept py c self :
  well_kept self ->
  same_config self (perform py c self) /\ well_kept (perform py c self).
Proof.
  intros Hk. destruct c as [idx role|r field role|i|i|doc|c]; simpl.
  - apply data_well_kept, Hk.
  - apply value_well_kept, Hk.
  - rewrite documentIdAtIndex_state. apply value_well_kept, Hk.
  - apply documentAtIndex_well_kept, Hk.
  - apply updateHeader_well_kept, Hk.
  - unfold store_changes. destruct (cursor self);
      (split; [repeat split|]); (eapply well_kept_config; [| | |exact Hk]);
      repeat split.
Qed.

Lemma setQuery_well_kept db collection query self :
  well_kept self ->
  same_config self (setQuery db collection query self).2
  /\ well_kept (setQuery db collection query self).2.
Proof.
  intros (Hcap & [Hlen Hnd] & Hs).
  unfold setQuery. unfold_M. simpl.
  destruct (find_sorted db collection query) as [c|e]; simpl;
    [|split; [repeat split|]; repeat split; assumption].
  destruct (count_documents db collection query) as [n|e]; simpl;
    [|split; [repeat split|]; repeat split; assumption].
  unfold cache_clear. simpl.
  unfold well_kept, cache_sound, same_config, capacity, cache_of, cached in *.
  simpl.
  destruct (documentAtIndex_cache self) as [k|] eqn:Hk; simpl;
    rewrite ?Hk; simpl.
  - repeat split; try assumption; try (simpl; lia); repeat constructor.
  - repeat split; try assumption; try (simpl; lia); repeat constructor.
Qed.

Lemma session_well_kept py steps :
  forall self,
    well_kept self ->
    same_config self (session py steps self)
    /\ well_kept (session py steps self).
Proof.
  induction steps as [|s steps IH]; intros self Hk; simpl.
  - split; [apply same_config_refl | exact Hk].
  - assert (same_config self (session_perform py s self)
            /\ well_kept (session_perform py s self)) as [Hcfg Hk1].
    { destruct s as [db collection query|c]; simpl;
        [apply setQuery_well_kept | apply perform_well_kept]; exact Hk. }
    destruct (IH _ Hk1) as [Hcfg2 Hk2].
    split; [eapply same_config_trans; eassumption | exact Hk2].
Qed.

(** Whatever queries are submitted and calls are made on an instance from
    its construction on, and whether they return or raise: the nesting
    depth, the formatting options and the cache size are those given to
    [__init__]; the document cache never holds more rows than its capacity
    (the cache size, or 0 if it is negative) and never the same row twice;
    and the header is strictly sorted, so it has no duplicate. *)
Theorem session_invariants py max_nesting0 cache_size bson_options0 steps :
  let self := session py steps (init max_nesting0 cache_size bson_options0) in
  max_nesting self = max_nesting0
  /\ bson_options self = bson_options0
  /\ _instance_lru_cache_size self = cache_size
  /\ capacity self = Z.max 0 cache_size
  /\ Z.of_nat (length (cached self)) <= capacity self
  /\ NoDup (cached self).*1
  /\ StronglySorted str_lt (header self)
  /\ NoDup (header self).
Proof.
  assert (Hk : well_kept (init max_nesting0 cache_size bson_options0)).
  { unfold well_kept, cache_sound, capacity, cache_of, cached. simpl.
    repeat split; try lia; constructor. }
  destruct (session_well_kept py steps _ Hk)
    as [(Hm & Hb & Hs & Hc) (Hcap & [Hlen Hnd] & Hsorted)].
  simpl. repeat split; try assumption.
  apply StronglySorted_str_lt_NoDup, Hsorted.
Qed.

(** ** Notifications come in pairs *)

Lemma paired_app evs1 evs2 : paired evs1 -> paired evs2 -> paired (evs1 ++ evs2).
Proof.
  induction 1 as [|e evs He _ IH|? ? ? ? ? ? evs _ IH|? ? ? ? ? ? evs _ IH];
    intros H2; simpl.
  - exact H2.
  - apply paired_quiet; auto.
  - apply paired_remove; auto.
  - apply paired_insert; auto.
Qed.

Lemma column_insertions_paired rows h evs h' :
  column_insertions rows h evs h' -> paired evs.
Proof. induction 1; constructor; assumption. Qed.

Lemma logs_paired_refl self self' : log self' = log self -> logs_paired self self'.
Proof. intros H. exists []. rewrite app_nil_r. split; [exact H|constructor]. Qed.

Lemma logs_paired_trans s1 s2 s3 :
  logs_paired s1 s2 -> logs_paired s2 s3 -> logs_paired s1 s3.
Proof.
  intros (e1 & H1 & P1) (e2 & H2 & P2). exists (e1 ++ e2).
  rewrite H2, H1, app_assoc. split; [reflexivity | apply paired_app; assumption].
Qed.

Lemma documentAtIndex_func_paired i self :
  logs_paired self (documentAtIndex_func i self).2.
Proof.
  unfold documentAtIndex_func. unfold_M.
  destruct (cursor self) as [c|]; [|apply logs_paired_refl; reflexivity].
  simpl.
  assert (Hq : forall e, is_signal e = false -> paired [e])
    by (intros e He; constructor; [exact He | constructor]).
  destruct (cursor_getitem c i) as [doc|[]]; simpl;
    try (exists [CursorGetItem i]; split; [reflexivity | apply Hq; reflexivity]).
  destruct (cursor_count c) as [n|e]; simpl.
  - unfold cache_clear.
    destruct (n - n_docs self <? 0); simpl;
      destruct (documentAtIndex_cache self); simpl;
      unfold logs_paired; simpl; rewrite <- ?app_assoc; simpl;
      eexists; (split; [reflexivity|]);
      repeat (first [ apply paired_remove | apply paired_quiet; [reflexivity|]
                    | apply paired_nil ]).
  - exists [CursorGetItem i; CursorCount].
    split; [simpl; rewrite <- app_assoc; reflexivity|].
    repeat (apply paired_quiet; [reflexivity|]). constructor.
Qed.

Lemma lru_cache_wrapper_paired i self :
  logs_paired self (lru_cache_wrapper i self).2.
Proof.
  unfold lru_cache_wrapper.
  destruct (documentAtIndex_cache self) as [k|];
    [|apply logs_paired_refl; reflexivity].
  destruct (maxsize k =? 0); [apply documentAtIndex_func_paired|].
  destruct (lru_lookup i (entries k)); [apply logs_paired_refl; reflexivity|].
  pose proof (documentAtIndex_func_paired i self) as H.
  destruct (documentAtIndex_func i self) as [[r|e] s1]; exact H.
Qed.

Lemma documentAtIndex_paired i self :
  logs_paired self (documentAtIndex i self).2.
Proof.
  unfold documentAtIndex.
  destruct (documentAtIndex_cache self) as [k|];
    [apply lru_cache_wrapper_paired|].
  match goal with |- context [lru_cache_wrapper i ?s] =>
    apply (lru_cache_wrapper_paired i s) end.
Qed.

Lemma updateHeader_paired py doc self :
  logs_paired self (updateHeader py doc self).2.
Proof.
  destruct (updateHeader_spec py doc self)
    as (evs & s & Hrun & Hlog & Hins & _).
  rewrite Hrun. exists evs. split; [exact Hlog|].
  eapply column_insertions_paired, Hins.
Qed.

Lemma data_paired py idx role self :
  logs_paired self (data py idx role self).2.
Proof.
  rewrite data_state.
  destruct (isValid idx); [|apply logs_paired_refl; reflexivity].
  pose proof (documentAtIndex_paired (row idx) self) as H.
  destruct (documentAtIndex (row idx) self) as [[[doc|]|e] s1];
    cbn [fst snd] in *; try exact H.
  eapply logs_paired_trans; [exact H | apply updateHeader_paired].
Qed.

Lemma value_paired py r field role self :
  logs_paired self (value py r field role self).2.
Proof.
  rewrite value_state.
  destruct (list_contains field (header self));
    [|apply logs_paired_refl; reflexivity].
  destruct (list_index field (header self));
    [|apply logs_paired_refl; reflexivity].
  destruct (index _ _ self);
    [apply data_paired | apply logs_paired_refl; reflexivity].
Qed.

Lemma perform_paired py c self : logs_paired self (perform py c self).
Proof.
  destruct c as [idx role|r field role|i|i|doc|c]; simpl.
  - apply data_paired.
  - apply value_paired.
  - rewrite documentIdAtIndex_state. apply value_paired.
  - apply documentAtIndex_paired.
  - apply updateHeader_paired.
  - apply logs_paired_refl. unfold store_changes.
    destruct (cursor self); reflexivity.
Qed.

(** Between two calls of [setQuery], whatever is asked of the model and
    whether the calls return or raise, what the log gains is well formed:
    every [beginRemoveRows] and every [beginInsertColumns] is followed at
    once by its [endRemoveRows] or [endInsertColumns], so no two changes are
    ever open at the same time, and no reset is announced. *)
Theorem notifications_paired py cs self :
  exists evs, log (run py cs self) = log self ++ evs /\ paired evs.
Proof.
  revert self. induction cs as [|c cs IH]; intros self; simpl.
  - apply logs_paired_refl. reflexivity.
  - eapply logs_paired_trans; [apply perform_paired | apply IH].
Qed.
